(** * Circle-Crop: a shallow embedding of [App.tsx] and [CircleCropper.tsx]

    The development follows the two React components of the repository:

    - [CircleCropper]: auto-fit on load, the preview compositor [draw], the
      pointer handlers [handleStart] / [handleMove], the two sliders and
      [handleFinish];
    - [App]: the session state, [onCropComplete], [removeBackground],
      [downloadImage], [exportVideoAsSVG] and [recordVideoExport].

    Conventions of the embedding.

    - A JavaScript [number] is a rational extended with [NaN] and the two
      infinities.  Arithmetic is exact: the rounding of binary64 (and the sign
      of zero) is outside this model.  Finite results are kept as reduced
      fractions, so that equal values are equal terms.  The values of the
      scenarios are compared at the end with what binary64 computes.
    - A [CanvasRenderingContext2D] is a drawing state with a stack; a component
      emits the list of context calls it makes, in source order, and [exec]
      runs them, producing the list of paints with the drawing state each one
      was made under.
    - React state is passed explicitly.  Handlers are run one event at a time,
      each seeing the state committed by the previous one.
    - Promise rejections and thrown exceptions are values of [completion]. *)

From Stdlib Require Import QArith Qreduction ZArith List String Ascii Bool Lia Lqa.
From Stdlib Require Import PrimFloat Uint63.
Import ListNotations.

Set Implicit Arguments.

(** ** JavaScript numbers *)

Module JS.

Inductive number : Type :=
| Num (q : Q)
| Infinity
| NegInfinity
| NaN.

(** A literal of the source, as a reduced fraction. *)
Definition lit (q : Q) : number := Num (Qred q).

Definition neg (a : number) : number :=
  match a with
  | Num p => Num (Qred (- p))
  | Infinity => NegInfinity
  | NegInfinity => Infinity
  | NaN => NaN
  end.

Definition add (a b : number) : number :=
  match a, b with
  | NaN, _ | _, NaN => NaN
  | Num p, Num q => Num (Qred (p + q))
  | Infinity, NegInfinity | NegInfinity, Infinity => NaN
  | Infinity, _ | _, Infinity => Infinity
  | NegInfinity, _ | _, NegInfinity => NegInfinity
  end.

Definition sub (a b : number) : number := add a (neg b).

(** The infinity of the sign of [p]; [NaN] at zero (for [0 * Infinity]). *)
Definition signed_inf (p : Q) (positive : number) : number :=
  match p ?= 0 with
  | Eq => NaN
  | Gt => positive
  | Lt => neg positive
  end.

Definition mul (a b : number) : number :=
  match a, b with
  | NaN, _ | _, NaN => NaN
  | Num p, Num q => Num (Qred (p * q))
  | Num p, Infinity | Infinity, Num p => signed_inf p Infinity
  | Num p, NegInfinity | NegInfinity, Num p => signed_inf p NegInfinity
  | Infinity, Infinity | NegInfinity, NegInfinity => Infinity
  | Infinity, NegInfinity | NegInfinity, Infinity => NegInfinity
  end.

Definition div (a b : number) : number :=
  match a, b with
  | NaN, _ | _, NaN => NaN
  | Num p, Num q =>
      match q ?= 0 with
      | Eq => signed_inf p Infinity
      | _ => Num (Qred (p / q))
      end
  | Num _, (Infinity | NegInfinity) => Num 0
  | Infinity, Num q => if Qle_bool 0 q then Infinity else NegInfinity
  | NegInfinity, Num q => if Qle_bool 0 q then NegInfinity else Infinity
  | (Infinity | NegInfinity), (Infinity | NegInfinity) => NaN
  end.

(** [a <= b] of JavaScript: false as soon as one side is [NaN]. *)
Definition le (a b : number) : bool :=
  match a, b with
  | NaN, _ | _, NaN => false
  | NegInfinity, _ | _, Infinity => true
  | Num p, Num q => Qle_bool p q
  | _, _ => false
  end.

Definition ge (a b : number) : bool := le b a.

Definition lt (a b : number) : bool :=
  match a, b with
  | NaN, _ | _, NaN => false
  | _, _ => negb (le b a)
  end.

(** [Math.min] of two arguments. *)
Definition min (a b : number) : number :=
  match a, b with
  | NaN, _ | _, NaN => NaN
  | _, _ => if le a b then a else b
  end.

(** [ToBoolean] on a number: [0] and [NaN] are falsy. *)
Definition truthy (a : number) : bool :=
  match a with
  | Num p => negb (Qeq_bool p 0)
  | NaN => false
  | Infinity | NegInfinity => true
  end.

(** [a || b] on numbers. *)
Definition or (a b : number) : number := if truthy a then a else b.

(** [a === 0]. *)
Definition is_zero (a : number) : bool :=
  match a with
  | Num p => Qeq_bool p 0
  | _ => false
  end.

(** [Math.PI]: the binary64 constant, as the fraction it denotes. *)
Definition PI : number := lit (884279719003555 # 281474976710656).

End JS.

Export JS (number, Num, Infinity, NegInfinity, NaN, lit).

Declare Scope js_scope.
Delimit Scope js_scope with js.
Bind Scope js_scope with number.
Coercion lit : Q >-> number.

Notation "a + b" := (JS.add a b) : js_scope.
Notation "a - b" := (JS.sub a b) : js_scope.
Notation "a * b" := (JS.mul a b) : js_scope.
Notation "a / b" := (JS.div a b) : js_scope.
Notation "- a" := (JS.neg a) : js_scope.
Notation "a >= b" := (JS.ge a b) : js_scope.
Notation "a <= b" := (JS.le a b) : js_scope.
Notation "a < b" := (JS.lt a b) : js_scope.

Open Scope Z_scope.
Open Scope string_scope.
Open Scope list_scope.
Open Scope Q_scope.
Open Scope js_scope.

(** ** Strings to numbers: [parseInt] and [parseFloat]

    Both skip leading white space (the ASCII white space characters here),
    read the longest prefix that is a numeral and ignore what follows it;
    without such a prefix the result is [NaN]. *)

Module Parse.

Definition is_space (c : ascii) : bool :=
  match nat_of_ascii c with
  | 9%nat | 10%nat | 11%nat | 12%nat | 13%nat | 32%nat => true
  | _ => false
  end.

Fixpoint trim_start (s : string) : string :=
  match s with
  | String c rest => if is_space c then trim_start rest else s
  | EmptyString => s
  end.

(** The value of [c] as a digit of the given radix (10 or 16). *)
Definition digit (radix : Z) (c : ascii) : option Z :=
  let n := Z.of_nat (nat_of_ascii c) in
  let v :=
    if (48 <=? n)%Z && (n <=? 57)%Z then Some (n - 48)%Z
    else if (97 <=? n)%Z && (n <=? 102)%Z then Some (n - 87)%Z
    else if (65 <=? n)%Z && (n <=? 70)%Z then Some (n - 55)%Z
    else None in
  match v with
  | Some d => if (d <? radix)%Z then Some d else None
  | None => None
  end.

(** The longest prefix of digits: its value on top of [acc], how many digits
    were read, and the rest of the string. *)
Fixpoint digits (radix : Z) (s : string) (acc : Z) (count : nat) : Z * nat * string :=
  match s with
  | String c rest =>
      match digit radix c with
      | Some d => digits radix rest (acc * radix + d)%Z (S count)
      | None => (acc, count, s)
      end
  | EmptyString => (acc, count, s)
  end.

(** An optional sign: [-1] or [1], and the rest. *)
Definition sign (s : string) : Z * string :=
  match s with
  | String "-" rest => ((-1)%Z, rest)
  | String "+" rest => (1%Z, rest)
  | _ => (1%Z, s)
  end.

Definition strip_hex_prefix (s : string) : Z * string :=
  match s with
  | String "0" (String "x" rest) | String "0" (String "X" rest) => (16%Z, rest)
  | _ => (10%Z, s)
  end.

(** [parseInt(s)], the radix left out. *)
Definition parseInt (s : string) : number :=
  let '(sg, s1) := sign (trim_start s) in
  let '(radix, s2) := strip_hex_prefix s1 in
  let '(v, n, _) := digits radix s2 0 0 in
  match n with
  | O => NaN
  | _ => lit (inject_Z (sg * v))
  end.

(** The exponent part [e], [e+] or [e-] followed by digits; [0] when the
    digits are missing (the exponent is then not part of the numeral). *)
Definition exponent (s : string) : Z :=
  match s with
  | String "e" rest | String "E" rest =>
      let '(sg, s1) := sign rest in
      let '(v, n, _) := digits 10 s1 0 0 in
      match n with
      | O => 0%Z
      | _ => (sg * v)%Z
      end
  | _ => 0%Z
  end.

(** [parseFloat(s)]. *)
Definition parseFloat (s : string) : number :=
  let '(sg, s1) := sign (trim_start s) in
  if String.prefix "Infinity" s1 then
    (if (sg <? 0)%Z then NegInfinity else Infinity)
  else
    let '(ip, ni, s2) := digits 10 s1 0 0 in
    let '(fp, nf, s3) :=
      match s2 with
      | String "." rest => digits 10 rest 0 0
      | _ => (0%Z, O, s2)
      end in
    match (ni + nf)%nat with
    | O => NaN
    | _ =>
        let mantissa := inject_Z (sg * (ip * 10 ^ Z.of_nat nf + fp)) in
        lit (mantissa * Qpower 10 (exponent s3 - Z.of_nat nf))
    end.

End Parse.

Export Parse (parseInt, parseFloat).

(** ** Media elements *)

Record HTMLImageElement := {
  img_src : string;
  width : number;
  height : number
}.

Record HTMLVideoElement := {
  video_src : string;
  muted : bool;
  loop : bool;
  playsInline : bool;
  videoWidth : number;
  videoHeight : number;
  duration : number
}.

(** [HTMLImageElement | HTMLVideoElement], the type of [ExportResult.source]
    and of the [media] of the compositor. *)
Inductive Media :=
| Image (img : HTMLImageElement)
| Video (video : HTMLVideoElement).

(** ** The 2D canvas context *)

Module Canvas.

(** One factor of the current transformation matrix.  The matrix is kept as
    the list of its factors, first applied last: no trigonometry is needed to
    compare two matrices built by the same calls. *)
Inductive Transform :=
| Translate (tx ty : number)
| Rotate (angle : number)
| Scale (sx sy : number).

(** [rgba(r,g,b,a)]. *)
Inductive Color := rgba (r g b : Z) (a : number).

(** The colour keyword [white]. *)
Definition white : Color := rgba 255 255 255 1.
Definition black : Color := rgba 0 0 0 1.

(** [createLinearGradient(x0, y0, x1, y1)] with the stops added to it. *)
Record Gradient := {
  x0 : number; y0 : number; x1 : number; y1 : number;
  stops : list (number * Color)
}.

Definition createLinearGradient (gx0 gy0 gx1 gy1 : number) : Gradient :=
  {| x0 := gx0; y0 := gy0; x1 := gx1; y1 := gy1; stops := [] |}.

Definition addColorStop (offset : number) (c : Color) (g : Gradient) : Gradient :=
  {| x0 := x0 g; y0 := y0 g; x1 := x1 g; y1 := y1 g;
     stops := stops g ++ [(offset, c)] |}.

Inductive Style :=
| Solid (c : Color)
| Linear (g : Gradient).

(** The functions of a [filter] string. *)
Inductive FilterFn :=
| blur (px : number)
| brightness (amount : number).

Inductive CompositeOp :=
| source_over
| destination_out.

(** An arc of the current path, with the matrix it was added under. *)
Record Arc := {
  cx : number; cy : number; radius : number;
  startAngle : number; endAngle : number;
  arc_ctm : list Transform
}.

Definition Path := list Arc.

(** The drawing state that [save] pushes and [restore] pops. *)
Record DrawingState := {
  ctm : list Transform;
  clipRegion : list Path;
  filter : list FilterFn;
  fillStyle : Style;
  strokeStyle : Style;
  lineWidth : number;
  globalCompositeOperation : CompositeOp
}.

(** The state of a context that was just obtained. *)
Definition fresh : DrawingState :=
  {| ctm := []; clipRegion := []; filter := [];
     fillStyle := Solid black; strokeStyle := Solid black;
     lineWidth := 1; globalCompositeOperation := source_over |}.

(** The calls a component makes on its context, property assignments
    included ([set_filter f] is [ctx.filter = f]). *)
Inductive Call :=
| clearRect (rx ry w h : number)
| save
| restore
| translate (tx ty : number)
| rotate (angle : number)
| scale (sx sy : number)
| drawImage (m : Media) (dx dy : number)
| fillRect (rx ry w h : number)
| beginPath
| arc (ax ay r a0 a1 : number)
| fill
| clip
| stroke
| set_filter (f : list FilterFn)
| set_fillStyle (s : Style)
| set_strokeStyle (s : Style)
| set_lineWidth (w : number)
| set_globalCompositeOperation (op : CompositeOp).

Inductive Shape :=
| Rect (rx ry w h : number)
| Outline (p : Path)
| Picture (m : Media) (dx dy : number).

Inductive PaintKind := Clear | Fill | Stroke | Draw.

(** What reached the bitmap: the kind of paint, its shape in user space and
    the drawing state it was made under. *)
Record Paint := {
  kind : PaintKind;
  shape : Shape;
  under : DrawingState
}.

Record Context := {
  current : DrawingState;
  saved : list DrawingState;
  path : Path
}.

Definition getContext : Context :=
  {| current := fresh; saved := []; path := [] |}.

Definition with_current (f : DrawingState -> DrawingState) (c : Context) : Context :=
  {| current := f (current c); saved := saved c; path := path c |}.

Definition with_path (p : Path) (c : Context) : Context :=
  {| current := current c; saved := saved c; path := p |}.

Definition paint (k : PaintKind) (sh : Shape) (c : Context) : Paint :=
  {| kind := k; shape := sh; under := current c |}.

Definition transform_by (t : Transform) (s : DrawingState) : DrawingState :=
  {| ctm := ctm s ++ [t]; clipRegion := clipRegion s; filter := filter s;
     fillStyle := fillStyle s; strokeStyle := strokeStyle s;
     lineWidth := lineWidth s;
     globalCompositeOperation := globalCompositeOperation s |}.

Definition clip_by (p : Path) (s : DrawingState) : DrawingState :=
  {| ctm := ctm s; clipRegion := clipRegion s ++ [p]; filter := filter s;
     fillStyle := fillStyle s; strokeStyle := strokeStyle s;
     lineWidth := lineWidth s;
     globalCompositeOperation := globalCompositeOperation s |}.

Definition filter_to (f : list FilterFn) (s : DrawingState) : DrawingState :=
  {| ctm := ctm s; clipRegion := clipRegion s; filter := f;
     fillStyle := fillStyle s; strokeStyle := strokeStyle s;
     lineWidth := lineWidth s;
     globalCompositeOperation := globalCompositeOperation s |}.

Definition fillStyle_to (st : Style) (s : DrawingState) : DrawingState :=
  {| ctm := ctm s; clipRegion := clipRegion s; filter := filter s;
     fillStyle := st; strokeStyle := strokeStyle s;
     lineWidth := lineWidth s;
     globalCompositeOperation := globalCompositeOperation s |}.

Definition strokeStyle_to (st : Style) (s : DrawingState) : DrawingState :=
  {| ctm := ctm s; clipRegion := clipRegion s; filter := filter s;
     fillStyle := fillStyle s; strokeStyle := st;
     lineWidth := lineWidth s;
     globalCompositeOperation := globalCompositeOperation s |}.

Definition lineWidth_to (w : number) (s : DrawingState) : DrawingState :=
  {| ctm := ctm s; clipRegion := clipRegion s; filter := filter s;
     fillStyle := fillStyle s; strokeStyle := strokeStyle s;
     lineWidth := w;
     globalCompositeOperation := globalCompositeOperation s |}.

Definition composite_to (op : CompositeOp) (s : DrawingState) : DrawingState :=
  {| ctm := ctm s; clipRegion := clipRegion s; filter := filter s;
     fillStyle := fillStyle s; strokeStyle := strokeStyle s;
     lineWidth := lineWidth s;
     globalCompositeOperation := op |}.

(** One call: the context after it and what it painted, if it paints.
    [restore] on an empty stack does nothing; [beginPath] empties the path,
    which [save] and [restore] leave alone. *)
Definition step (c : Context) (call : Call) : Context * option Paint :=
  match call with
  | save =>
      ({| current := current c; saved := current c :: saved c; path := path c |},
       None)
  | restore =>
      match saved c with
      | [] => (c, None)
      | s :: rest => ({| current := s; saved := rest; path := path c |}, None)
      end
  | translate tx ty => (with_current (transform_by (Translate tx ty)) c, None)
  | rotate angle => (with_current (transform_by (Rotate angle)) c, None)
  | scale sx sy => (with_current (transform_by (Scale sx sy)) c, None)
  | set_filter f => (with_current (filter_to f) c, None)
  | set_fillStyle s => (with_current (fillStyle_to s) c, None)
  | set_strokeStyle s => (with_current (strokeStyle_to s) c, None)
  | set_lineWidth w => (with_current (lineWidth_to w) c, None)
  | set_globalCompositeOperation op => (with_current (composite_to op) c, None)
  | beginPath => (with_path [] c, None)
  | arc ax ay r a0 a1 =>
      (with_path (path c ++ [{| cx := ax; cy := ay; radius := r;
                                startAngle := a0; endAngle := a1;
                                arc_ctm := ctm (current c) |}]) c,
       None)
  | clip => (with_current (clip_by (path c)) c, None)
  | clearRect rx ry w h => (c, Some (paint Clear (Rect rx ry w h) c))
  | fillRect rx ry w h => (c, Some (paint Fill (Rect rx ry w h) c))
  | drawImage m dx dy => (c, Some (paint Draw (Picture m dx dy) c))
  | fill => (c, Some (paint Fill (Outline (path c)) c))
  | stroke => (c, Some (paint Stroke (Outline (path c)) c))
  end.

(** A run of calls: the context it leaves and its paints, in order. *)
Fixpoint exec (calls : list Call) (c : Context) : Context * list Paint :=
  match calls with
  | [] => (c, [])
  | call :: rest =>
      let (c1, p) := step c call in
      let (c2, ps) := exec rest c1 in
      (c2, match p with Some p1 => p1 :: ps | None => ps end)
  end.

(** The paints of a run on a context just obtained. *)
Definition render (calls : list Call) : list Paint :=
  snd (exec calls getContext).

(** A drawing state with the identity matrix, no clip, no filter and the
    default compositing: what a balanced run leaves for the next one. *)
Definition pristine (s : DrawingState) : bool :=
  match ctm s, clipRegion s, filter s, globalCompositeOperation s with
  | [], [], [], source_over => true
  | _, _, _, _ => false
  end.

(** What a paint shows of its drawing state: the matrix, the clip, the
    filter and the compositing always; the style it paints with, and for a
    stroke the width of the line. *)
Record Layer := {
  painted : PaintKind;
  outline : Shape;
  matrix : list Transform;
  clipped : list Path;
  filtered : list FilterFn;
  blend : CompositeOp;
  ink : option Style;
  pen : option number
}.

Definition layer (p : Paint) : Layer :=
  {| painted := kind p;
     outline := shape p;
     matrix := ctm (under p);
     clipped := clipRegion (under p);
     filtered := filter (under p);
     blend := globalCompositeOperation (under p);
     ink := match kind p with
            | Fill => Some (fillStyle (under p))
            | Stroke => Some (strokeStyle (under p))
            | Draw | Clear => None
            end;
     pen := match kind p with
            | Stroke => Some (lineWidth (under p))
            | _ => None
            end |}.

(** A full circle, as [arc(x, y, r, 0, Math.PI * 2)] adds it under the
    identity matrix. *)
Definition circle (ax ay r : number) : Arc :=
  {| cx := ax; cy := ay; radius := r;
     startAngle := 0; endAngle := JS.PI * 2; arc_ctm := [] |}.

(** *** Where the origin of user space lands

    [Rotate] and [Scale] fix the origin, so a matrix that starts with one
    translation maps the origin to that translation.  Other matrices would
    need the sine and cosine of their angles: [None]. *)
Definition fixes_origin (t : Transform) : bool :=
  match t with
  | Translate _ _ => false
  | Rotate _ | Scale _ _ => true
  end.

Definition origin (m : list Transform) : option (number * number) :=
  match m with
  | Translate tx ty :: rest =>
      if forallb fixes_origin rest then Some (tx, ty) else None
  | _ => if forallb fixes_origin m then Some (lit 0, lit 0) else None
  end.

(** The matrix [m] applied about the point [(px, py)]: the translation to
    the point, then [m].  A CSS transform acts about the centre of its box;
    two translations in a row add up. *)
Definition about (px py : number) (m : list Transform) : list Transform :=
  match m with
  | Translate tx ty :: rest => Translate (px + tx) (py + ty) :: rest
  | _ => Translate px py :: m
  end.

(** *** The alpha channel of one pixel

    Each paint comes with its coverage of the pixel, from 0 to 1: the
    geometry of its shape under the matrix and the clip, the spread of its
    filter, the alpha of the picture or of the gradient there.  A solid
    style adds its own alpha.  Compositing is Porter-Duff on the alpha
    channel. *)
Definition style_alpha (s : Style) : number :=
  match s with
  | Solid (rgba _ _ _ a) => a
  | Linear _ => 1
  end.

Definition source_alpha (cover : number) (p : Paint) : number :=
  match kind p with
  | Fill => cover * style_alpha (fillStyle (under p))
  | Stroke => cover * style_alpha (strokeStyle (under p))
  | Draw | Clear => cover
  end.

Definition composite (p : Paint) (src dst : number) : number :=
  match kind p with
  | Clear => dst * (1 - src)
  | _ =>
      match globalCompositeOperation (under p) with
      | source_over => src + dst * (1 - src)
      | destination_out => dst * (1 - src)
      end
  end.

(** The alpha of the pixel after the paints [ps], from the alpha [dst]. *)
Definition pixel_alpha (ps : list (Paint * number)) (dst : number) : number :=
  fold_left (fun a pc => composite (fst pc) (source_alpha (snd pc) (fst pc)) a) ps dst.

End Canvas.

Import Canvas.

(** ** SVG markup

    The two SVG exports build their file from a template string.  The
    embedding keeps the tree of the template; a value interpolated into it
    stays a number. *)

Module Markup.

(** A function of an SVG [transform] attribute or of a CSS [transform]
    declaration; lengths in user units or [px], angles in degrees. *)
Inductive TransformFn :=
| translate (tx ty : number)
| rotate (degrees : number)
| scale (s : number).

Inductive CssValue :=
| Keyword (k : string)
| Px (n : number)
| Percent (n : number)
| TransformList (fs : list TransformFn).

(** [Embedded] is a [data:] URL made by [canvas.toDataURL] from a canvas of
    the given size and bitmap. *)
Inductive AttrValue :=
| Text (s : string)
| Number (n : number)
| Numbers (ns : list number)
| Transforms (fs : list TransformFn)
| Style (declarations : list (string * CssValue))
| Embedded (w h : number) (bitmap : list Paint).

#[warnings="-register-all"]
Inductive Xml :=
| Element (tag : string) (attrs : list (string * AttrValue)) (children : list Xml).

Definition tag_of (e : Xml) : string := let 'Element t _ _ := e in t.
Definition children_of (e : Xml) : list Xml := let 'Element _ _ cs := e in cs.

Fixpoint lookup {A : Type} (key : string) (l : list (string * A)) : option A :=
  match l with
  | [] => None
  | (k, v) :: rest => if String.eqb k key then Some v else lookup key rest
  end.

Definition attr (name : string) (e : Xml) : option AttrValue :=
  let 'Element _ attrs _ := e in lookup name attrs.

(** The first element with the given tag, the root first, then the children
    in document order. *)
Fixpoint find (tag : string) (e : Xml) : option Xml :=
  let 'Element t _ cs := e in
  if String.eqb t tag then Some e
  else
    (fix first (l : list Xml) : option Xml :=
       match l with
       | [] => None
       | c :: rest =>
           match find tag c with
           | Some hit => Some hit
           | None => first rest
           end
       end) cs.

(** The first element with the last tag of [tags], below elements with the
    tags before it. *)
Fixpoint descend (tags : list string) (e : Xml) : option Xml :=
  match tags with
  | [] => Some e
  | t :: rest =>
      match find t e with
      | Some hit => descend rest hit
      | None => None
      end
  end.

(** The same function on a canvas: degrees become radians. *)
Definition to_canvas (f : TransformFn) : Canvas.Transform :=
  match f with
  | translate tx ty => Translate tx ty
  | rotate degrees => Rotate (degrees * JS.PI / 180)
  | scale s => Scale s s
  end.

End Markup.

(** ** [types.ts] *)

Module Types.

Record CropState := {
  x : number;
  y : number;
  zoom : number;
  rotation : number
}.

(** What a [Blob] was made from. *)
Inductive BlobParts :=
| Bitmap (w h : number) (bitmap : list Paint) (quality : option number)
| Bytes (bytes : list ascii)
| Document (doc : Markup.Xml)
| Recorded (chunks : list (list Paint)).

Record Blob := {
  parts : BlobParts;
  type : string
}.

Record ExportResult := {
  blob : Blob;
  state : CropState;
  source : Media;
  isVideo : bool;
  bgRemoved : option bool
}.

End Types.

Import Types.

(** [canvas.toBlob(callback, type, quality)] on a canvas that received
    [calls]. *)
Definition toBlob (w h : number) (calls : list Call) (type : string)
    (quality : option number) : Blob :=
  {| parts := Bitmap w h (render calls) quality; type := type |}.

(** [(media as HTMLVideoElement).videoWidth] and the like: a property read
    on the union.  A video element has a [width] (its attribute, never set
    here: 0); an image element has no [videoWidth] ([undefined], [NaN] in
    arithmetic). *)
Definition get_width (m : Media) : number :=
  match m with Image img => width img | Video _ => 0 end.
Definition get_height (m : Media) : number :=
  match m with Image img => height img | Video _ => 0 end.
Definition get_videoWidth (m : Media) : number :=
  match m with Video v => videoWidth v | Image _ => NaN end.
Definition get_videoHeight (m : Media) : number :=
  match m with Video v => videoHeight v | Image _ => NaN end.
Definition get_duration (m : Media) : number :=
  match m with Video v => duration v | Image _ => NaN end.

(** ** [components/CircleCropper.tsx] *)

Module CircleCropper.

Record Pos := { pos_x : number; pos_y : number }.

(** The refs and the state hooks of the component. *)
Record Cropper := {
  videoRef : option HTMLVideoElement;
  imageRef : option HTMLImageElement;
  isLoaded : bool;
  state : CropState;
  dragging : bool;
  lastPos : Pos
}.

Definition mounted : Cropper :=
  {| videoRef := None; imageRef := None; isLoaded := false;
     state := {| x := 0; y := 0; zoom := 1; rotation := 0 |};
     dragging := false;
     lastPos := {| pos_x := 0; pos_y := 0 |} |}.

Definition setState (f : CropState -> CropState) (c : Cropper) : Cropper :=
  {| videoRef := videoRef c; imageRef := imageRef c; isLoaded := isLoaded c;
     state := f (state c); dragging := dragging c; lastPos := lastPos c |}.

Definition setDragging (b : bool) (c : Cropper) : Cropper :=
  {| videoRef := videoRef c; imageRef := imageRef c; isLoaded := isLoaded c;
     state := state c; dragging := b; lastPos := lastPos c |}.

Definition setLastPos (p : Pos) (c : Cropper) : Cropper :=
  {| videoRef := videoRef c; imageRef := imageRef c; isLoaded := isLoaded c;
     state := state c; dragging := dragging c; lastPos := p |}.

(** The video element the effect creates for [sourceSrc]; its dimensions
    and duration are the decoder's. *)
Definition createVideo (sourceSrc : string) (w h d : number) : HTMLVideoElement :=
  {| video_src := sourceSrc; muted := true; loop := true; playsInline := true;
     videoWidth := w; videoHeight := h; duration := d |}.

(** [video.onloadeddata]. *)
Definition onloadeddata (video : HTMLVideoElement) (c : Cropper) : Cropper :=
  let canvasSize : number := 800 in
  let diameter := canvasSize * 0.8 in
  let initialScale := diameter / JS.min (videoWidth video) (videoHeight video) in
  {| videoRef := Some video; imageRef := imageRef c; isLoaded := true;
     state := {| x := 0; y := 0; zoom := initialScale; rotation := 0 |};
     dragging := dragging c; lastPos := lastPos c |}.

(** [img.onload]. *)
Definition onload (img : HTMLImageElement) (c : Cropper) : Cropper :=
  let canvasSize : number := 800 in
  let diameter := canvasSize * 0.8 in
  let initialScale := diameter / JS.min (width img) (height img) in
  {| videoRef := videoRef c; imageRef := Some img; isLoaded := true;
     state := {| x := 0; y := 0; zoom := initialScale; rotation := 0 |};
     dragging := dragging c; lastPos := lastPos c |}.

(** The [<canvas>] of the preview; [context2d] tells whether
    [getContext('2d')] gives a context. *)
Record HTMLCanvasElement := {
  canvas_width : number;
  canvas_height : number;
  context2d : bool
}.

(** [<canvas ref={canvasRef} width={800} height={800} />] *)
Definition preview_canvas : HTMLCanvasElement :=
  {| canvas_width := 800; canvas_height := 800; context2d := true |}.

(** [isVideo ? videoRef.current : imageRef.current] *)
Definition current_media (isVideo : bool) (c : Cropper) : option Media :=
  if isVideo then option_map Video (videoRef c)
  else option_map Image (imageRef c).

(** [draw]: the calls of one frame of the preview, [None] when it returns
    before drawing.  For a video the frame asks for the next one
    ([requestAnimationFrame(draw)]): see [draws_again]. *)
Definition draw (canvasRef : option HTMLCanvasElement) (isVideo : bool)
    (c : Cropper) : option (list Call) :=
  match canvasRef, current_media isVideo c with
  | Some canvas, Some media =>
      if negb (context2d canvas) then None
      else
        let st := state c in
        let size := canvas_width canvas in
        let centerX := size / 2 in
        let centerY := size / 2 in
        let radius := size * 0.4 in
        let mediaWidth := if isVideo then get_videoWidth media else get_width media in
        let mediaHeight := if isVideo then get_videoHeight media else get_height media in
        let grad :=
          addColorStop 1 (rgba 255 255 255 0.1)
            (addColorStop 0 (rgba 255 255 255 0.6)
               (createLinearGradient 0 (centerY - radius) 0 (centerY + radius))) in
        Some
          [ clearRect 0 0 size size;
            (* 1. Background (Blurred) *)
            save;
            set_filter [blur 20; brightness 0.4];
            translate (centerX + x st) (centerY + y st);
            rotate (rotation st * JS.PI / 180);
            scale (zoom st) (zoom st);
            drawImage media (- mediaWidth / 2) (- mediaHeight / 2);
            restore;
            (* 2. Overlay *)
            set_fillStyle (Solid (rgba 0 0 0 0.5));
            fillRect 0 0 size size;
            (* 3. Mask Cutout *)
            set_globalCompositeOperation destination_out;
            beginPath;
            arc centerX centerY radius 0 (JS.PI * 2);
            fill;
            set_globalCompositeOperation source_over;
            (* 4. Actual Image/Video in Circle *)
            save;
            beginPath;
            arc centerX centerY radius 0 (JS.PI * 2);
            clip;
            translate (centerX + x st) (centerY + y st);
            rotate (rotation st * JS.PI / 180);
            scale (zoom st) (zoom st);
            drawImage media (- mediaWidth / 2) (- mediaHeight / 2);
            restore;
            (* 5. Glossy Border *)
            beginPath;
            arc centerX centerY radius 0 (JS.PI * 2);
            set_strokeStyle (Linear grad);
            set_lineWidth 4;
            stroke ]
  | _, _ => None
  end.

Definition draws_again (isVideo : bool) : bool := isVideo.

(** [handleStart] and [handleMove]; [handleEnd] is the [setDragging(false)]
    of [onMouseUp] and [onTouchEnd]. *)
Definition handleStart (clientX clientY : number) (c : Cropper) : Cropper :=
  setLastPos {| pos_x := clientX; pos_y := clientY |} (setDragging true c).

(** The updater [prev => ({ ...prev, x: prev.x + dx, y: prev.y + dy })]. *)
Definition panBy (dx dy : number) (prev : CropState) : CropState :=
  {| x := x prev + dx; y := y prev + dy;
     zoom := zoom prev; rotation := rotation prev |}.

Definition handleMove (clientX clientY : number) (c : Cropper) : Cropper :=
  if negb (dragging c) then c
  else
    let dx := clientX - pos_x (lastPos c) in
    let dy := clientY - pos_y (lastPos c) in
    setLastPos {| pos_x := clientX; pos_y := clientY |} (setState (panBy dx dy) c).

Definition handleEnd (c : Cropper) : Cropper := setDragging false c.

(** The two [<input type="range">] and their [onChange]. *)
Record InputRange := { min : string; max : string; step : string }.

Definition zoom_slider : InputRange := {| min := "0.1"; max := "5"; step := "0.01" |}.
Definition rotation_slider : InputRange := {| min := "-180"; max := "180"; step := "1" |}.

Definition zoom_onChange (value : string) (c : Cropper) : Cropper :=
  setState (fun prev =>
    {| x := x prev; y := y prev; zoom := parseFloat value;
       rotation := rotation prev |}) c.

Definition rotation_onChange (value : string) (c : Cropper) : Cropper :=
  setState (fun prev =>
    {| x := x prev; y := y prev; zoom := zoom prev;
       rotation := parseInt value |}) c.

(** [handleFinish]: the result handed to [onCropComplete], [None] when the
    function returns before.  [context2d] tells whether the canvas it
    creates gives a context. *)
Definition handleFinish (isVideo : bool) (context2d : bool) (c : Cropper)
    : option ExportResult :=
  match current_media isVideo c with
  | None => None
  | Some media =>
      let exportSize : number := 1024 in
      if negb context2d then None
      else
        let st := state c in
        let S := exportSize / (800 * 0.8) in
        let mediaWidth := if isVideo then get_videoWidth media else get_width media in
        let mediaHeight := if isVideo then get_videoHeight media else get_height media in
        if negb isVideo then
          let calls :=
            [ beginPath;
              arc (exportSize / 2) (exportSize / 2) (exportSize / 2) 0 (JS.PI * 2);
              clip;
              translate (exportSize / 2 + x st * S) (exportSize / 2 + y st * S);
              rotate (rotation st * JS.PI / 180);
              scale (zoom st * S) (zoom st * S);
              drawImage media (- mediaWidth / 2) (- mediaHeight / 2) ] in
          Some {| blob := toBlob exportSize exportSize calls "image/png" None;
                  Types.state := st; source := media; isVideo := false;
                  bgRemoved := None |}
        else
          Some {| blob := toBlob exportSize exportSize [] "image/png" None;
                  Types.state := st; source := media; isVideo := true;
                  bgRemoved := None |}
  end.

End CircleCropper.

(** ** Exceptions and effects

    [removeBackground] is an [async] function with [try], [catch] and
    [finally].  An action runs on the application state and the effects so
    far and either returns or throws; the state and the effects survive a
    throw. *)

Module Action.

Inductive Outcome (A : Type) : Type :=
| Return (a : A)
| Throw (error : string).

Arguments Return {A} a.
Arguments Throw {A} error.

Section WithWorld.

Variable World : Type.

Definition Action (A : Type) : Type := World -> Outcome A * World.

Definition ret {A : Type} (a : A) : Action A := fun w => (Return a, w).

Definition throw {A : Type} (error : string) : Action A := fun w => (Throw error, w).

Definition bind {A B : Type} (m : Action A) (k : A -> Action B) : Action B :=
  fun w =>
    match m w with
    | (Return a, w') => k a w'
    | (Throw e, w') => (Throw e, w')
    end.

(** [await p] for a promise that settles as [p]. *)
Definition await {A : Type} (p : Outcome A) : Action A := fun w => (p, w).

Definition modify (f : World -> World) : Action unit := fun w => (Return tt, f w).

(** [try { body } catch (error) { handler }]. *)
Definition try_catch {A : Type} (body : Action A) (handler : string -> Action A)
    : Action A :=
  fun w =>
    match body w with
    | (Return a, w') => (Return a, w')
    | (Throw e, w') => handler e w'
    end.

(** [try { body } finally { finalizer }]: the finalizer runs either way;
    when it returns, the completion of the body stands. *)
Definition try_finally {A : Type} (body : Action A) (finalizer : Action unit)
    : Action A :=
  fun w =>
    match body w with
    | (r, w') =>
        match finalizer w' with
        | (Return _, w'') => (r, w'')
        | (Throw e, w'') => (Throw e, w'')
        end
    end.

End WithWorld.

End Action.

Import Action.

Declare Scope action_scope.
Delimit Scope action_scope with action.
Notation "x <- m ;; k" := (bind m (fun x => k))
  (at level 61, m at next level, right associativity) : action_scope.
Notation "m ;; k" := (bind m (fun _ => k))
  (at level 61, right associativity) : action_scope.

(** ** [atob]

    Forgiving base64: white space is dropped, one or two [=] are allowed at
    the end of a string whose length is a multiple of four, and anything else
    outside the alphabet, or one symbol left over, raises
    [InvalidCharacterError]. *)

Module Base64.

Definition sextet (c : ascii) : option N :=
  let n := N_of_ascii c in
  if (65 <=? n)%N && (n <=? 90)%N then Some (n - 65)%N
  else if (97 <=? n)%N && (n <=? 122)%N then Some (n - 71)%N
  else if (48 <=? n)%N && (n <=? 57)%N then Some (n + 4)%N
  else if (n =? 43)%N then Some 62%N
  else if (n =? 47)%N then Some 63%N
  else None.

Fixpoint sextets (l : list ascii) : option (list N) :=
  match l with
  | [] => Some []
  | c :: rest =>
      match sextet c, sextets rest with
      | Some v, Some vs => Some (v :: vs)
      | _, _ => None
      end
  end.

Definition byte (n : N) : ascii := ascii_of_N (n mod 256).

(** Groups of four symbols give three bytes; two symbols left give one
    byte, three give two.  [fuel] bounds the number of groups. *)
Fixpoint decode (fuel : nat) (vs : list N) : option (list ascii) :=
  match fuel with
  | O => None
  | S fuel' =>
      match vs with
      | [] => Some []
      | [_] => None
      | [a; b] => Some [byte (a * 4 + b / 16)]
      | [a; b; c] => Some [byte (a * 4 + b / 16); byte (b * 16 + c / 4)]
      | a :: b :: c :: d :: rest =>
          match decode fuel' rest with
          | Some bytes =>
              Some (byte (a * 4 + b / 16) :: byte (b * 16 + c / 4)
                      :: byte (c * 64 + d) :: bytes)
          | None => None
          end
      end
  end.

Definition is_ascii_whitespace (c : ascii) : bool :=
  match nat_of_ascii c with
  | 9%nat | 10%nat | 12%nat | 13%nat | 32%nat => true
  | _ => false
  end.

Definition is_pad (c : ascii) : bool := Ascii.eqb c "=".

Definition strip_padding (l : list ascii) : list ascii :=
  if (Nat.modulo (List.length l) 4 =? 0)%nat then
    match rev l with
    | p1 :: p2 :: rest =>
        if is_pad p1 then (if is_pad p2 then rev rest else rev (p2 :: rest))
        else l
    | _ => l
    end
  else l.

Definition atob (s : string) : Outcome (list ascii) :=
  let l := List.filter (fun c => negb (is_ascii_whitespace c)) (list_ascii_of_string s) in
  match sextets (strip_padding l) with
  | Some vs =>
      match decode (S (List.length vs)) vs with
      | Some bytes => Return bytes
      | None => Throw "InvalidCharacterError"
      end
  | None => Throw "InvalidCharacterError"
  end.

End Base64.

(** ** [App.tsx] *)

Module App.

Inductive ExportFormat := png | jpg | svg | mp4.

Record SourceData := { src : string; isVideo : bool }.

(** [URL.createObjectURL(blob)]. *)
Record ObjectURL := createObjectURL { referent : Blob }.

Record AppState := {
  sourceData : option SourceData;
  exportData : option ExportResult;
  previewUrl : option ObjectURL;
  currentFormat : ExportFormat;
  isProcessing : bool;
  processingMessage : string;
  recordingProgress : number
}.

Definition initial : AppState :=
  {| sourceData := None; exportData := None; previewUrl := None;
     currentFormat := png; isProcessing := false; processingMessage := "";
     recordingProgress := 0 |}.

Definition setSourceData (v : option SourceData) (s : AppState) : AppState :=
  {| sourceData := v; exportData := exportData s; previewUrl := previewUrl s;
     currentFormat := currentFormat s; isProcessing := isProcessing s;
     processingMessage := processingMessage s;
     recordingProgress := recordingProgress s |}.

Definition setExportData (v : option ExportResult) (s : AppState) : AppState :=
  {| sourceData := sourceData s; exportData := v; previewUrl := previewUrl s;
     currentFormat := currentFormat s; isProcessing := isProcessing s;
     processingMessage := processingMessage s;
     recordingProgress := recordingProgress s |}.

Definition setPreviewUrl (v : option ObjectURL) (s : AppState) : AppState :=
  {| sourceData := sourceData s; exportData := exportData s; previewUrl := v;
     currentFormat := currentFormat s; isProcessing := isProcessing s;
     processingMessage := processingMessage s;
     recordingProgress := recordingProgress s |}.

Definition setCurrentFormat (v : ExportFormat) (s : AppState) : AppState :=
  {| sourceData := sourceData s; exportData := exportData s;
     previewUrl := previewUrl s;
     currentFormat := v; isProcessing := isProcessing s;
     processingMessage := processingMessage s;
     recordingProgress := recordingProgress s |}.

Definition setIsProcessing (v : bool) (s : AppState) : AppState :=
  {| sourceData := sourceData s; exportData := exportData s;
     previewUrl := previewUrl s;
     currentFormat := currentFormat s; isProcessing := v;
     processingMessage := processingMessage s;
     recordingProgress := recordingProgress s |}.

Definition setProcessingMessage (v : string) (s : AppState) : AppState :=
  {| sourceData := sourceData s; exportData := exportData s;
     previewUrl := previewUrl s;
     currentFormat := currentFormat s; isProcessing := isProcessing s;
     processingMessage := v;
     recordingProgress := recordingProgress s |}.

Definition setRecordingProgress (v : number) (s : AppState) : AppState :=
  {| sourceData := sourceData s; exportData := exportData s;
     previewUrl := previewUrl s;
     currentFormat := currentFormat s; isProcessing := isProcessing s;
     processingMessage := processingMessage s;
     recordingProgress := v |}.

(** What a handler does outside the React state. *)
Record Download := {
  file : Blob;
  prefix : string;
  timestamp : number;
  extension : string
}.

Inductive Effect :=
| alert (message : string)
| console_error (message : string)
| revokeObjectURL (url : ObjectURL)
| click (link : Download).

Definition World : Type := AppState * list Effect.

Definition set (f : AppState -> AppState) : Action World unit :=
  modify (fun w : World => (f (fst w), snd w)).

Definition perform (e : Effect) : Action World unit :=
  modify (fun w : World => (fst w, snd w ++ [e])).

(** [reader.onload] of [handleFileChange]. *)
Definition handleFileChange (result : string) (isVideo : bool) (s : AppState)
    : AppState :=
  setPreviewUrl None
    (setExportData None
       (setSourceData (Some {| src := result; isVideo := isVideo |}) s)).

(** *** [onCropComplete]

    The video branch is synchronous; the image branch leaves the rest to a
    timer of 600 ms, [onCropComplete_timeout]. *)
Definition onCropComplete (result : ExportResult) : Action World unit :=
  (set (setIsProcessing true) ;;
   set (setProcessingMessage "Generating Preview...") ;;
   (fun w : World =>
      match previewUrl (fst w) with
      | Some url => perform (revokeObjectURL url) w
      | None => ret tt w
      end) ;;
   if Types.isVideo result then
     set (setCurrentFormat mp4) ;;
     set (setPreviewUrl (Some (createObjectURL (blob result)))) ;;
     set (setExportData (Some result)) ;;
     set (setSourceData None) ;;
     set (setIsProcessing false)
   else
     set (setCurrentFormat png))%action.

Definition onCropComplete_timeout (result : ExportResult) : Action World unit :=
  (set (setPreviewUrl (Some (createObjectURL (blob result)))) ;;
   set (setExportData (Some result)) ;;
   set (setSourceData None) ;;
   set (setIsProcessing false))%action.

(** *** [removeBackground] *)

(** The response of [ai.models.generateContent], every field optional as in
    the SDK's types. *)
Record InlineData := { data : option string; mimeType : option string }.
Record Part := { inlineData : option InlineData; text : option string }.
Record Content := { content_parts : option (list Part) }.
Record Candidate := { content : option Content }.
Record Response := { candidates : option (list Candidate) }.

(** [response.candidates[0].content.parts], as the [for ... of] needs it:
    reading a property of [undefined], or iterating over it, is a
    [TypeError]. *)
Definition parts_of (response : Response) : Outcome (list Part) :=
  match candidates response with
  | Some (candidate :: _) =>
      match content candidate with
      | Some c =>
          match content_parts c with
          | Some ps => Return ps
          | None => Throw "TypeError"
          end
      | None => Throw "TypeError"
      end
  | Some [] | None => Throw "TypeError"
  end.

(** The loop: [newImageBase64] starts as [''] and takes the [data] of the
    first part with an [inlineData]. *)
Fixpoint first_inline (ps : list Part) : option string :=
  match ps with
  | [] => Some ""
  | part :: rest =>
      match inlineData part with
      | Some inline => data inline
      | None => first_inline rest
      end
  end.

(** [if (newImageBase64)]: [undefined] and [''] are falsy. *)
Definition nonempty (s : option string) : option string :=
  match s with
  | Some EmptyString | None => None
  | Some str => Some str
  end.

(** What the function meets outside: whether [new GoogleGenAI] returns or
    throws, the base64 of the current blob as the [FileReader] gives it (the
    blob is in memory: the read succeeds), and how the promise of
    [generateContent] settles.  A promise that never settles is outside this
    model. *)
Record Network := {
  GoogleGenAI : Outcome unit;
  readAsDataURL : string;
  generateContent : Outcome Response
}.

(** The call fails: the client cannot be made, or the request is
    rejected. *)
Definition fails (net : Network) : bool :=
  match GoogleGenAI net, generateContent net with
  | Return _, Return _ => false
  | _, _ => true
  end.

(** The function is [async]: it reads [exportData] from the render it was
    made in (its closure), and its setters act on the state as it is when
    they are called.  [exportData] is that of the closure. *)
Definition removeBackground (net : Network) (exportData : option ExportResult)
    : Action World unit :=
  match exportData with
  | None => ret tt
  | Some exported =>
      if Types.isVideo exported then ret tt
      else
        (set (setIsProcessing true) ;;
         set (setProcessingMessage "Magic Background Removal...") ;;
         try_finally
           (try_catch
              (ai <- await (GoogleGenAI net) ;;
               let base64Data := readAsDataURL net in
               response <- await (generateContent net) ;;
               ps <- await (parts_of response) ;;
               match nonempty (first_inline ps) with
               | Some newImageBase64 =>
                   byteCharacters <- await (Base64.atob newImageBase64) ;;
                   let newBlob :=
                     {| parts := Bytes byteCharacters; type := "image/png" |} in
                   let url := createObjectURL newBlob in
                   set (setPreviewUrl (Some url)) ;;
                   set (setExportData
                          (Some {| blob := newBlob;
                                   state := state exported;
                                   source := source exported;
                                   Types.isVideo := Types.isVideo exported;
                                   bgRemoved := Some true |}))
               | None => ret tt
               end)
              (fun error =>
                 perform (console_error "BG removal failed:") ;;
                 perform (alert "Background removal failed. Please check your connection.")))
           (set (setIsProcessing false) ;;
            set (setProcessingMessage "")))%action
  end.

Definition reset (s : AppState) : AppState :=
  setProcessingMessage ""
    (setRecordingProgress 0
       (setPreviewUrl None (setExportData None (setSourceData None s)))).

(** [a || b] on strings, [a] possibly [undefined]. *)
Definition or_else (a : option string) (b : string) : string :=
  match a with
  | Some EmptyString | None => b
  | Some str => str
  end.

(** *** [exportVideoAsSVG] *)
Definition exportVideoAsSVG (now : number) (s : AppState) : option Download :=
  match exportData s with
  | None => None
  | Some exported =>
      if negb (Types.isVideo exported) then None
      else
        let video := source exported in
        let st := state exported in
        let exportSize : number := 1024 in
        let S := exportSize / (800 * 0.8) in
        let svgString :=
          Markup.Element "svg"
            [ ("width", Markup.Number exportSize);
              ("height", Markup.Number exportSize);
              ("viewBox", Markup.Numbers [lit 0; lit 0; exportSize; exportSize]);
              ("xmlns", Markup.Text "http://www.w3.org/2000/svg") ]
            [ Markup.Element "defs" []
                [ Markup.Element "clipPath" [ ("id", Markup.Text "circleClip") ]
                    [ Markup.Element "circle"
                        [ ("cx", Markup.Number (exportSize / 2));
                          ("cy", Markup.Number (exportSize / 2));
                          ("r", Markup.Number (exportSize / 2)) ] [] ] ];
              Markup.Element "foreignObject"
                [ ("x", Markup.Number 0); ("y", Markup.Number 0);
                  ("width", Markup.Number exportSize);
                  ("height", Markup.Number exportSize);
                  ("clip-path", Markup.Text "url(#circleClip)") ]
                [ Markup.Element "div"
                    [ ("xmlns", Markup.Text "http://www.w3.org/1999/xhtml");
                      ("style",
                        Markup.Style
                          [ ("width", Markup.Percent 100);
                            ("height", Markup.Percent 100);
                            ("display", Markup.Keyword "flex");
                            ("align-items", Markup.Keyword "center");
                            ("justify-content", Markup.Keyword "center") ]) ]
                    [ Markup.Element "video"
                        [ ("autoplay", Markup.Text "true");
                          ("loop", Markup.Text "true");
                          ("muted", Markup.Text "true");
                          ("style",
                            Markup.Style
                              [ ("transform",
                                  Markup.TransformList
                                    [ Markup.translate (x st * S) (y st * S);
                                      Markup.rotate (rotation st);
                                      Markup.scale (zoom st * S) ]);
                                ("width", Markup.Px (get_videoWidth video));
                                ("height", Markup.Px (get_videoHeight video));
                                ("object-fit", Markup.Keyword "cover") ]) ]
                        [ Markup.Element "source"
                            [ ("src",
                                Markup.Text (or_else (option_map src (sourceData s)) ""));
                              ("type", Markup.Text "video/mp4") ] [] ] ] ] ] in
        Some {| file := {| parts := Document svgString; type := "image/svg+xml" |};
                prefix := "habib_video_container_"; timestamp := now;
                extension := ".svg" |}
  end.

(** *** [downloadImage]

    [context2d] tells whether the canvases the function creates give a
    context. *)
Definition downloadImage (now : number) (context2d : bool) (s : AppState)
    : option Download :=
  match exportData s with
  | None => None
  | Some exported =>
      if Types.isVideo exported then None
      else
        let st := state exported in
        let img := source exported in
        let exportSize : number := 1024 in
        let timestamp := now in
        match currentFormat s with
        | png =>
            Some {| file := blob exported; prefix := "habib_image_";
                    timestamp := timestamp; extension := ".png" |}
        | jpg =>
            if context2d then
              let S := exportSize / (800 * 0.8) in
              let calls :=
                [ set_fillStyle (Solid white);
                  fillRect 0 0 exportSize exportSize;
                  beginPath;
                  arc (exportSize / 2) (exportSize / 2) (exportSize / 2) 0 (JS.PI * 2);
                  clip;
                  translate (exportSize / 2 + x st * S) (exportSize / 2 + y st * S);
                  rotate (rotation st * JS.PI / 180);
                  scale (zoom st * S) (zoom st * S);
                  drawImage img (- get_width img / 2) (- get_height img / 2) ] in
              Some {| file := toBlob exportSize exportSize calls "image/jpeg"
                                (Some (lit 0.9));
                      prefix := "habib_image_"; timestamp := timestamp;
                      extension := ".jpg" |}
            else None
        | svg =>
            let base64 :=
              Markup.Embedded (get_width img) (get_height img)
                (render (if context2d then [drawImage img 0 0] else [])) in
            let S := exportSize / (800 * 0.8) in
            let doc :=
              Markup.Element "svg"
                [ ("width", Markup.Number exportSize);
                  ("height", Markup.Number exportSize);
                  ("viewBox", Markup.Numbers [lit 0; lit 0; exportSize; exportSize]);
                  ("xmlns", Markup.Text "http://www.w3.org/2000/svg") ]
                [ Markup.Element "defs" []
                    [ Markup.Element "clipPath" [ ("id", Markup.Text "c") ]
                        [ Markup.Element "circle"
                            [ ("cx", Markup.Number (exportSize / 2));
                              ("cy", Markup.Number (exportSize / 2));
                              ("r", Markup.Number (exportSize / 2)) ] [] ] ];
                  Markup.Element "g" [ ("clip-path", Markup.Text "url(#c)") ]
                    [ Markup.Element "image"
                        [ ("width", Markup.Number (get_width img));
                          ("height", Markup.Number (get_height img));
                          ("href", base64);
                          ("transform",
                            Markup.Transforms
                              [ Markup.translate (exportSize / 2 + x st * S)
                                  (exportSize / 2 + y st * S);
                                Markup.rotate (rotation st);
                                Markup.scale (zoom st * S);
                                Markup.translate (- get_width img / 2)
                                  (- get_height img / 2) ]) ] [] ] ] in
            Some {| file := {| parts := Document doc; type := "image/svg+xml" |};
                    prefix := "habib_image_"; timestamp := timestamp;
                    extension := ".svg" |}
        | mp4 => None
        end
  end.

(** *** [recordVideoExport]

    [Capture.closure] is what [renderFrame] and [recorder.onstop] close
    over. *)
Module Capture.

Record closure := {
  video : Media;
  state : CropState;
  exportSize : number;
  S : number;
  frameRate : number;
  mimeType : string;
  duration : number;
  startTime : number
}.

End Capture.

(** The environment of a recording: whether the new canvas gives a context,
    whether [MediaRecorder] takes the container asked for, how
    [video.play()] settles, and [performance.now()] once it has. *)
Record Studio := {
  context2d : bool;
  supported : bool;
  play : Outcome unit;
  now : number
}.

Definition recordVideoExport (env : Studio) : Action World (option Capture.closure) :=
  fun w : World =>
    match exportData (fst w) with
    | None => ret None w
    | Some exported =>
        if negb (Types.isVideo exported) then ret None w
        else
          (set (setIsProcessing true) ;;
           set (setProcessingMessage "Recording Loop...") ;;
           set (setRecordingProgress 0) ;;
           let video := source exported in
           let st := Types.state exported in
           let exportSize : number := 720 in
           if negb (context2d env) then ret None
           else
             let S := exportSize / (800 * 0.8) in
             let fps : number := 30 in
             if negb (supported env) then throw "NotSupportedError"
             else
               await (play env) ;;
               let duration := JS.min (JS.or (get_duration video) 5) 10 in
               let startTime := now env in
               ret (Some {| Capture.video := video; Capture.state := st;
                            Capture.exportSize := exportSize; Capture.S := S;
                            Capture.frameRate := fps;
                            Capture.mimeType := "video/webm;codecs=vp9";
                            Capture.duration := duration;
                            Capture.startTime := startTime |}))%action w
    end.

Inductive Frame :=
| Stopped
| Drawn (calls : list Call).

(** [renderFrame], called at time [now] with [video.ended] as given. *)
Definition renderFrame (c : Capture.closure) (now : number) (ended : bool)
    (s : AppState) : AppState * Frame :=
  let exportSize := Capture.exportSize c in
  let S := Capture.S c in
  let st := Capture.state c in
  let video := Capture.video c in
  let elapsed := (now - Capture.startTime c) / 1000 in
  let s' := setRecordingProgress (JS.min 100 (elapsed / Capture.duration c * 100)) s in
  if (elapsed >= Capture.duration c) || ended then (s', Stopped)
  else
    (s',
     Drawn
       [ clearRect 0 0 exportSize exportSize;
         save;
         beginPath;
         arc (exportSize / 2) (exportSize / 2) (exportSize / 2) 0 (JS.PI * 2);
         clip;
         translate (exportSize / 2 + x st * S) (exportSize / 2 + y st * S);
         rotate (rotation st * JS.PI / 180);
         scale (zoom st * S) (zoom st * S);
         drawImage video (- get_videoWidth video / 2) (- get_videoHeight video / 2);
         restore ]).

(** The animation loop: one [renderFrame] per tick of the display, each
    tick with its clock reading and [video.ended], until a frame stops the
    recorder.  The result is the state and the frame of every call made. *)
Fixpoint animate (c : Capture.closure) (ticks : list (number * bool))
    (s : AppState) : list (AppState * Frame) :=
  match ticks with
  | [] => []
  | (now, ended) :: rest =>
      let (s', frame) := renderFrame c now ended s in
      (s', frame) ::
        match frame with
        | Stopped => []
        | Drawn _ => animate c rest s'
        end
  end.

(** [recorder.onstop] at time [now], with the frames recorded. *)
Definition onstop (chunks : list (list Paint)) (now : number) : Action World unit :=
  (perform (click {| file := {| parts := Recorded chunks; type := "video/webm" |};
                     prefix := "habib_video_crop_"; timestamp := now;
                     extension := ".webm" |}) ;;
   set (setIsProcessing false) ;;
   set (setRecordingProgress 0))%action.

(** *** The session as a transition system

    One event per handler and per callback.  A synchronous handler reads the
    state of the render it was made in, which is the current one.  The
    callbacks that run later carry what they closed over: the timer of
    [onCropComplete] its [result], [removeBackground] the [exportData] of
    its closure, a frame of the recording its [Capture.closure]. *)

Inductive Event :=
| FileRead (result : string) (isVideo : bool)
| CropComplete (result : ExportResult)
| CropCompleteTimer (result : ExportResult)
| Back
| SelectFormat (format : ExportFormat)
| RemoveBackground (net : Network) (closure : option ExportResult)
| SaveAsSVG (now : number)
| Download_ (now : number) (context2d : bool)
| Record_ (env : Studio)
| AnimationFrame (c : Capture.closure) (now : number) (ended : bool)
| RecorderStop (chunks : list (list Paint)) (now : number)
| Reset.

Definition click_if (d : option Download) (w : World) : World :=
  match d with
  | Some link => (fst w, snd w ++ [click link])
  | None => w
  end.

Definition step (w : World) (e : Event) : World :=
  match e with
  | FileRead result isVideo => (handleFileChange result isVideo (fst w), snd w)
  | CropComplete result => snd (onCropComplete result w)
  | CropCompleteTimer result => snd (onCropComplete_timeout result w)
  | Back => (setSourceData None (fst w), snd w)
  | SelectFormat format => (setCurrentFormat format (fst w), snd w)
  | RemoveBackground net closure => snd (removeBackground net closure w)
  | SaveAsSVG now => click_if (exportVideoAsSVG now (fst w)) w
  | Download_ now context2d => click_if (downloadImage now context2d (fst w)) w
  | Record_ env => snd (recordVideoExport env w)
  | AnimationFrame c now ended => (fst (renderFrame c now ended (fst w)), snd w)
  | RecorderStop chunks now => snd (onstop chunks now w)
  | Reset => (reset (fst w), snd w)
  end.

Definition run (events : list Event) : World := fold_left step events (initial, []).

End App.

(** ** The specification's own words

    Definitions written from the specification, to compare with the code. *)

Module Spec.

(** "[initialize(mediaWidth, mediaHeight, canvasEdge)] computes zoom =
    (canvasEdge x 0.8) / min(mediaWidth, mediaHeight), pan = (0,0),
    rotation = 0." *)
Definition initialize (mediaWidth mediaHeight canvasEdge : number) : CropState :=
  {| x := 0; y := 0;
     zoom := (canvasEdge * 0.8) / JS.min mediaWidth mediaHeight;
     rotation := 0 |}.

Definition clamp (lo hi v : number) : number :=
  if v < lo then lo else if hi < v then hi else v.

(** "[setZoom(state, z)] clamps z to [0.1, 5.0]." *)
Definition setZoom (s : CropState) (z : number) : CropState :=
  {| x := x s; y := y s; zoom := clamp 0.1 5 z; rotation := rotation s |}.

(** "[setRotation(state, deg)] clamps to [-180, 180]." *)
Definition setRotation (s : CropState) (deg : number) : CropState :=
  {| x := x s; y := y s; zoom := zoom s; rotation := clamp (-180) 180 deg |}.

Definition previewEdge : number := 800.

(** "scaled by S = exportEdge / (previewEdge x 0.8)" *)
Definition exportScale (exportEdge : number) : number :=
  exportEdge / (previewEdge * 0.8).

(** The sharp-layer transform at export edge [E]: translate to
    (E/2 + panX.S, E/2 + panY.S), rotate by rotationDegrees, scale by
    zoom.S. *)
Definition sharpLayerTransform (E : number) (s : CropState) : list Transform :=
  let S := exportScale E in
  [ Translate (E / 2 + x s * S) (E / 2 + y s * S);
    Rotate (rotation s * JS.PI / 180);
    Scale (zoom s * S) (zoom s * S) ].

(** The one layer of an export: the media, unfiltered, under the matrix of
    the specification at edge [E], clipped to the circle inscribed in the
    canvas. *)
Definition export_layer (E : number) (st : CropState) (m : Media) (w h : number)
    : Layer :=
  {| painted := Draw; outline := Picture m (- w / 2) (- h / 2);
     matrix := sharpLayerTransform E st;
     clipped := [[circle (E / 2) (E / 2) (E / 2)]];
     filtered := []; blend := source_over; ink := None; pen := None |}.

(** "the circular mask radius is always exactly 0.4 x the canvas edge
    length" *)
Definition maskRadius (edge : number) : number := 0.4 * edge.

(** "for min(videoDuration, 10) seconds" *)
Definition captureDuration (videoDuration : number) : number :=
  JS.min videoDuration 10.

End Spec.

(** ** Readings of a bitmap and of a response *)

Module Observe.

Definition bitmap (b : Blob) : list Paint :=
  match parts b with
  | Bitmap _ _ ps _ => ps
  | _ => []
  end.

Definition document (b : Blob) : option Markup.Xml :=
  match parts b with
  | Document doc => Some doc
  | _ => None
  end.

(** The circles a paint is bounded by: those of its clip, then those of
    its own outline. *)
Definition masks (p : Paint) : list Arc :=
  List.concat (clipRegion (under p)) ++
  match shape p with
  | Outline arcs => arcs
  | _ => []
  end.

(** The intrinsic size [drawImage(media, dx, dy)] draws a medium at. *)
Definition intrinsic (m : Media) : number * number :=
  match m with
  | Image img => (width img, height img)
  | Video v => (videoWidth v, videoHeight v)
  end.

(** Where the centre of a drawn picture lands on the canvas, when the
    picture is centred on the origin of user space, as all pictures of this
    program are. *)
Definition picture_centre (l : Layer) : option (number * number) :=
  match outline l with
  | Picture m dx dy =>
      if JS.is_zero (dx + fst (intrinsic m) / 2)
         && JS.is_zero (dy + snd (intrinsic m) / 2)
      then origin (matrix l)
      else None
  | _ => None
  end.

(** Whether the parts the loop of [removeBackground] goes over have an
    [inlineData] among them. *)
Definition has_inline (response : App.Response) : bool :=
  match App.parts_of response with
  | Return ps =>
      existsb (fun part => match App.inlineData part with
                           | Some _ => true
                           | None => false
                           end) ps
  | Throw _ => false
  end.

Definition stopped (f : App.Frame) : bool :=
  match f with
  | App.Stopped => true
  | App.Drawn _ => false
  end.

(** The [transform] attribute of an SVG element and the [transform] of the
    [style] of an HTML element, as matrices of a canvas. *)
Definition transform_attr (e : Markup.Xml) : list Transform :=
  match Markup.attr "transform" e with
  | Some (Markup.Transforms fs) => map Markup.to_canvas fs
  | _ => []
  end.

Definition css_transform (e : Markup.Xml) : list Markup.TransformFn :=
  match Markup.attr "style" e with
  | Some (Markup.Style declarations) =>
      match Markup.lookup "transform" declarations with
      | Some (Markup.TransformList fs) => fs
      | _ => []
      end
  | _ => []
  end.

(** While the state holds the export of a video it holds no source. *)
Definition exclusive (s : App.AppState) : Prop :=
  forall exported : ExportResult,
    App.exportData s = Some exported ->
    Types.isVideo exported = true ->
    App.sourceData s = None.

(** A press at a point followed by moves through a list of points. *)
Definition drag (p0 : Q * Q) (path : list (Q * Q)) (c : CircleCropper.Cropper)
    : CircleCropper.Cropper :=
  fold_left (fun c' (p : Q * Q) => CircleCropper.handleMove (fst p) (snd p) c') path
            (CircleCropper.handleStart (fst p0) (snd p0) c).

End Observe.

(** ** Binary64

    The browser computes in binary64.  [to_binary64] rounds a number of the
    exact model to the nearest double (the quotient of two integers below
    2^53 is rounded once), to compare the values of the scenarios with what
    the browser computes step by step. *)

Module Binary64.

Definition float_of_Z (z : Z) : float :=
  if (z <? 0)%Z then (- of_uint63 (Uint63.of_Z (- z)))%float
  else of_uint63 (Uint63.of_Z z).

Definition to_binary64 (n : number) : float :=
  match n with
  | Num q => (float_of_Z (Qnum q) / float_of_Z (Zpos (Qden q)))%float
  | Infinity => infinity
  | NegInfinity => neg_infinity
  | NaN => nan
  end.

End Binary64.

(** ** Sample sessions

    Concrete media and the sessions they lead to, for the instances beside
    the theorems. *)

Module Sample.

Definition image : HTMLImageElement :=
  {| img_src := "data:image/png;base64,iVBORw0KGgo=";
     width := 2000; height := 1000 |}.

(** A clip of the given duration, in seconds. *)
Definition clip (seconds : number) : HTMLVideoElement :=
  CircleCropper.createVideo "data:video/mp4;base64,AAAAIGZ0eXA=" 1920 1080 seconds.

Definition image_cropper : CircleCropper.Cropper :=
  CircleCropper.onload image CircleCropper.mounted.

Definition video_cropper (seconds : number) : CircleCropper.Cropper :=
  CircleCropper.onloadeddata (clip seconds) CircleCropper.mounted.

(** The events of a crop carried to its end: [handleFinish], then
    [onCropComplete] and, for an image, its timer. *)
Definition finish (isVideo : bool) (c : CircleCropper.Cropper) : list App.Event :=
  match CircleCropper.handleFinish isVideo true c with
  | Some r =>
      App.CropComplete r :: (if isVideo then [] else [App.CropCompleteTimer r])
  | None => []
  end.

Definition image_session : App.World :=
  App.run (App.FileRead (img_src image) false :: finish false image_cropper).

Definition video_session (seconds : number) : App.World :=
  App.run (App.FileRead (video_src (clip seconds)) true
             :: finish true (video_cropper seconds)).

(** A browser where the recording can start, at time 0 of its clock. *)
Definition studio : App.Studio :=
  {| App.context2d := true; App.supported := true;
     App.play := Return tt; App.now := 0 |}.

(** The closure of a recording started in [studio] on a clip of the given
    duration. *)
Definition capture (seconds : number) : option App.Capture.closure :=
  match fst (App.recordVideoExport studio (video_session seconds)) with
  | Return cl => cl
  | Throw _ => None
  end.

(** The network down, and a model that answers with text only. *)
Definition offline : App.Network :=
  {| App.GoogleGenAI := Return tt;
     App.readAsDataURL := "iVBORw0KGgo=";
     App.generateContent := Throw "TypeError: Failed to fetch" |}.

Definition text_only : App.Network :=
  {| App.GoogleGenAI := Return tt;
     App.readAsDataURL := "iVBORw0KGgo=";
     App.generateContent :=
       Return
         {| App.candidates :=
              Some [ {| App.content :=
                          Some {| App.content_parts :=
                                    Some [ {| App.inlineData := None;
                                              App.text := Some "I cannot edit images." |} ] |} |} ] |} |}.

End Sample.

(** * Properties *)

Unset Implicit Arguments.

(** ** Arithmetic on finite numbers *)

Lemma Num_Qred_eq (p q : Q) : (p == q)%Q -> Num (Qred p) = Num (Qred q).
Proof. intros H. f_equal. now apply Qred_complete. Qed.

Lemma mul_comm (a b : number) : a * b = b * a.
Proof.
  destruct a as [p | | |], b as [q | | |]; try reflexivity.
  apply Num_Qred_eq. ring.
Qed.


Import CircleCropper.

(** ** Auto-fit on load *)

(** After auto-fit the shorter edge of the media, scaled by the zoom, is the
    diameter of the preview mask. *)
Lemma autofit_fills_mask (w h : Q) (c : Cropper) :
  (0 < w)%Q -> (0 < h)%Q ->
  zoom (state (onload {| img_src := ""; width := Num w; height := Num h |} c))
    * JS.min (Num w) (Num h) = 640.
Proof.
  intros Hw Hh. cbn [onload state zoom width height JS.min JS.le].
  assert (Hm : exists m, (0 < m)%Q /\
            (if Qle_bool w h then Num w else Num h) = Num m).
  { destruct (Qle_bool w h); eauto. }
  destruct Hm as (m & Hm & ->).
  cbn [JS.mul lit JS.div].
  destruct (Qcompare_spec m 0) as [E | L | G]; try lra.
  cbn [JS.mul]. apply Num_Qred_eq. rewrite !Qred_correct. field. lra.
Qed.

(** C5. For every image and every video, the crop state right after load is
    the one [initialize] of the specification gives for the intrinsic
    dimensions and a canvas edge of 800: zoom = (800 x 0.8) / min(width,
    height), pan (0,0), rotation 0.  A 2000 x 1000 image starts at zoom
    0.64. *)
Theorem C5_autofit_on_load :
  forall (img : HTMLImageElement) (video : HTMLVideoElement) (c : Cropper),
    state (onload img c) = Spec.initialize (width img) (height img) 800
    /\ state (onloadeddata video c)
       = Spec.initialize (videoWidth video) (videoHeight video) 800
    /\ zoom (state (onload img c)) = 800 * 0.8 / JS.min (width img) (height img)
    /\ (x (state (onload img c)), y (state (onload img c)),
        rotation (state (onload img c))) = (lit 0, lit 0, lit 0)
    /\ state (onload {| img_src := img_src img; width := 2000; height := 1000 |} c)
       = {| x := 0; y := 0; zoom := 0.64; rotation := 0 |}.
Proof.
  intros img video c. repeat split.
Qed.

(** ** The sliders *)



(** ** Dragging *)

Lemma panBy_panBy (dx1 dy1 dx2 dy2 : Q) (s : CropState) :
  panBy dx2 dy2 (panBy dx1 dy1 s) = panBy (dx1 + dx2) (dy1 + dy2) s.
Proof.
  unfold panBy; cbn [x y zoom rotation]. f_equal.
  - destruct (x s); try reflexivity.
    cbn [JS.add lit]. apply Num_Qred_eq. rewrite !Qred_correct. ring.
  - destruct (y s); try reflexivity.
    cbn [JS.add lit]. apply Num_Qred_eq. rewrite !Qred_correct. ring.
Qed.

(** Moving from a finite point through a finite point to a third adds to
    any coordinate what moving there directly adds. *)
Lemma move_through (a : number) (p0 p1 p2 : Q) :
  a + (p1 - p0) + (p2 - p1) = a + (p2 - p0).
Proof.
  destruct a; try reflexivity.
  cbn [JS.add JS.sub JS.neg lit]. apply Num_Qred_eq. rewrite !Qred_correct. ring.
Qed.

(** A drag through any finite points pans by the vector from the first to
    the last. *)
Lemma drag_telescopes (path : list (Q * Q)) :
  forall (p0 p : Q * Q) (c : Cropper),
    state (Observe.drag p0 (path ++ [p]) c)
    = panBy (fst p - fst p0) (snd p - snd p0) (state c).
Proof.
  unfold Observe.drag.
  assert (G : forall (l : list (Q * Q)) (q p : Q * Q) (c : Cropper),
             dragging c = true ->
             lastPos c = {| pos_x := fst q; pos_y := snd q |} ->
             state (fold_left (fun c' (p : Q * Q) => handleMove (fst p) (snd p) c')
                              (l ++ [p]) c)
             = panBy (fst p - fst q) (snd p - snd q) (state c)).
  { induction l as [| r l IH]; intros q p c Hd Hl.
    - cbn [app fold_left]. unfold handleMove. rewrite Hd, Hl. reflexivity.
    - cbn [app fold_left].
      rewrite (IH r p).
      + unfold handleMove. rewrite Hd, Hl. unfold panBy.
        cbn [negb setLastPos setState state pos_x pos_y x y zoom rotation fst snd].
        f_equal; apply move_through.
      + unfold handleMove. rewrite Hd. exact Hd.
      + unfold handleMove. rewrite Hd. reflexivity. }
  intros p0 p c.
  rewrite (G path p0 p (handleStart (fst p0) (snd p0) c)); reflexivity.
Qed.


(** ** The compositor *)

(** C3. From any context in its pristine state, one frame of the preview
    paints six layers in this order: the clear; the blurred (20px) and
    darkened (brightness 0.4) media under translate-rotate-scale, centred on
    its midpoint; a black rectangle of alpha 0.5 over the canvas; a
    [destination-out] fill of the circle of radius 0.4 x edge; the media
    again, unfiltered, under the same matrix, clipped to that circle; a 4px
    stroke of the circle with a vertical gradient from white at 60% to white
    at 10%.  The context is left pristine.  The fill of the fourth layer is
    made with the style of the third, whose alpha is 0.5: inside the circle
    it halves the alpha under it, which stays between 1/4 and 1/2 (for a
    backdrop coverage [a] of the pixel) and is what the finished frame shows
    wherever the sharp media and the rim do not cover the pixel. *)
Theorem C3_preview_layers :
  forall (canvas : HTMLCanvasElement) (isVideo : bool) (c : Cropper)
         (media : Media) (ctx : Context),
    context2d canvas = true ->
    current_media isVideo c = Some media ->
    pristine (current ctx) = true ->
    let size := canvas_width canvas in
    let st := state c in
    let w := if isVideo then get_videoWidth media else get_width media in
    let h := if isVideo then get_videoHeight media else get_height media in
    let disc := circle (size / 2) (size / 2) (size * 0.4) in
    let T := [ Translate (size / 2 + x st) (size / 2 + y st);
               Rotate (rotation st * JS.PI / 180);
               Scale (zoom st) (zoom st) ] in
    let rim :=
      {| x0 := 0; y0 := size / 2 - size * 0.4;
         x1 := 0; y1 := size / 2 + size * 0.4;
         stops := [ (lit 0, rgba 255 255 255 0.6); (lit 1, rgba 255 255 255 0.1) ] |} in
    exists calls,
      draw (Some canvas) isVideo c = Some calls
      /\ map layer (snd (exec calls ctx))
         = [ {| painted := Clear; outline := Rect 0 0 size size;
                matrix := []; clipped := []; filtered := [];
                blend := source_over; ink := None; pen := None |};
             {| painted := Draw; outline := Picture media (- w / 2) (- h / 2);
                matrix := T; clipped := [];
                filtered := [blur 20; brightness 0.4];
                blend := source_over; ink := None; pen := None |};
             {| painted := Fill; outline := Rect 0 0 size size;
                matrix := []; clipped := []; filtered := [];
                blend := source_over;
                ink := Some (Solid (rgba 0 0 0 0.5)); pen := None |};
             {| painted := Fill; outline := Outline [disc];
                matrix := []; clipped := []; filtered := [];
                blend := destination_out;
                ink := Some (Solid (rgba 0 0 0 0.5)); pen := None |};
             {| painted := Draw; outline := Picture media (- w / 2) (- h / 2);
                matrix := T; clipped := [[disc]]; filtered := [];
                blend := source_over; ink := None; pen := None |};
             {| painted := Stroke; outline := Outline [disc];
                matrix := []; clipped := []; filtered := [];
                blend := source_over;
                ink := Some (Linear rim); pen := Some (lit 4) |} ]
      /\ pristine (current (fst (exec calls ctx))) = true
      /\ saved (fst (exec calls ctx)) = saved ctx
      /\ forall a dst : Q,
           pixel_alpha (combine (firstn 4 (snd (exec calls ctx)))
                          [lit 1; lit a; lit 1; lit 1]) dst
           = lit (0.5 * (0.5 + 0.5 * a))
           /\ pixel_alpha (combine (snd (exec calls ctx))
                             [lit 1; lit a; lit 1; lit 1; lit 0; lit 0]) dst
              = lit (0.5 * (0.5 + 0.5 * a))
           /\ ((0 <= a)%Q -> (0.25 <= 0.5 * (0.5 + 0.5 * a))%Q).
Proof.
  intros canvas isVideo c media [[m cl f fs ss lw op] sv pth] Hctx Hmedia Hp.
  cbn [current pristine ctm clipRegion filter globalCompositeOperation] in Hp.
  destruct m; try discriminate. destruct cl; try discriminate.
  destruct f; try discriminate. destruct op; try discriminate.
  unfold draw. rewrite Hmedia, Hctx. cbn [negb].
  eexists. split; [reflexivity |].
  split; [reflexivity |]. split; [reflexivity |]. split; [reflexivity |].
  intros a dst. split; [| split].
  - cbv - [Qred Qplus Qmult Qopp Qdiv Qinv Qminus].
    apply Num_Qred_eq. rewrite ?Qred_correct. field.
  - cbv - [Qred Qplus Qmult Qopp Qdiv Qinv Qminus].
    apply Num_Qred_eq. rewrite ?Qred_correct. field.
  - intros Ha. lra.
Qed.

(** The witness of C3: the preview of a 2000 x 1000 image right after load;
    at a pixel of the circle that the backdrop covers, the alpha after the
    cut-out is 1/2. *)
Lemma C3_preview_layers_witness :
  let c := onload {| img_src := ""; width := 2000; height := 1000 |} mounted in
  context2d preview_canvas = true
  /\ pristine (current getContext) = true
  /\ exists calls,
       draw (Some preview_canvas) false c = Some calls
       /\ pixel_alpha (combine (firstn 4 (snd (exec calls getContext)))
                               [lit 1; lit 1; lit 1; lit 1]) 0
          = 0.5.
Proof.
  intros c. split; [reflexivity |]. split; [reflexivity |].
  destruct (C3_preview_layers preview_canvas false c
              (Image {| img_src := ""; width := 2000; height := 1000 |})
              getContext eq_refl eq_refl eq_refl)
    as (calls & Hdraw & _ & _ & _ & Halpha).
  exists calls. split; [exact Hdraw |].
  destruct (Halpha 1%Q 0%Q) as (H4 & _). exact H4.
Defined.

Import App.

(** ** Recording *)

(** What [renderFrame] closes over, when [recordVideoExport] gets as far as
    the first frame. *)
Lemma recordVideoExport_closure (env : Studio) (w w' : World) (cl : Capture.closure) :
  recordVideoExport env w = (Return (Some cl), w') ->
  exists exported,
    exportData (fst w) = Some exported
    /\ Types.isVideo exported = true
    /\ cl = {| Capture.video := source exported;
               Capture.state := Types.state exported;
               Capture.exportSize := 720;
               Capture.S := 720 / (800 * 0.8);
               Capture.frameRate := 30;
               Capture.mimeType := "video/webm;codecs=vp9";
               Capture.duration :=
                 JS.min (JS.or (get_duration (source exported)) 5) 10;
               Capture.startTime := now env |}.
Proof.
  unfold recordVideoExport.
  destruct (exportData (fst w)) as [exported |]; [| discriminate].
  destruct (Types.isVideo exported) eqn:Hv; cbn [negb]; [| discriminate].
  unfold bind, set, modify, ret, throw, await.
  destruct (context2d env); cbn [negb]; [| discriminate].
  destruct (supported env); cbn [negb]; [| discriminate].
  destruct (play env); [| discriminate].
  intros H. inversion H. eauto.
Qed.

(** ** The export transform *)

(** A picture drawn at minus half its size is centred on the origin. *)
Lemma centred_on_origin (w : Q) : JS.is_zero (- Num w / 2 + Num w / 2) = true.
Proof.
  change (lit 2) with (Num 2).
  cbn [JS.neg JS.div JS.add JS.is_zero].
  change ((2 ?= 0)%Q) with Gt. cbn [JS.add JS.is_zero].
  apply Qeq_bool_iff. rewrite !Qred_correct. field.
Qed.

(** C1. Every export that renders the crop again applies the matrix of the
    sharp layer scaled by S = E / (800 x 0.8): translate to (E/2 + panX.S,
    E/2 + panY.S), rotate by the rotation in degrees, scale by zoom.S.  This
    holds of the PNG made at the end of the crop (E = 1024), of the JPEG and
    of the SVG image (E = 1024) and of every frame of the recording
    (E = 720).  With pan (50,0), zoom 1 and rotation 0 the centre of the media
    lands at (592, 512) of the 1024px canvas: 80px from its centre along
    x. *)
Theorem C1_export_transform :
  forall (c : Cropper) (img : HTMLImageElement)
         (s : AppState) (e : ExportResult) (stamp : number)
         (env : Studio) (w w' : World) (cl : Capture.closure)
         (t : number) (ended : bool) (s1 : AppState)
         (iw ih : Q) (src : string),
    imageRef c = Some img ->
    exportData s = Some e ->
    Types.isVideo e = false ->
    recordVideoExport env w = (Return (Some cl), w') ->
    (exists r,
        handleFinish false true c = Some r
        /\ Types.state r = state c
        /\ map layer (Observe.bitmap (blob r))
           = [ Spec.export_layer 1024 (state c) (Image img) (width img) (height img) ])
    /\ (exists d,
          downloadImage stamp true (setCurrentFormat jpg s) = Some d
          /\ map layer (Observe.bitmap (file d))
             = [ {| painted := Fill; outline := Rect 0 0 1024 1024;
                    matrix := []; clipped := []; filtered := [];
                    blend := source_over; ink := Some (Solid white);
                    pen := None |};
                 Spec.export_layer 1024 (Types.state e) (source e)
                   (get_width (source e)) (get_height (source e)) ])
    /\ (exists d doc image,
          downloadImage stamp true (setCurrentFormat svg s) = Some d
          /\ Observe.document (file d) = Some doc
          /\ Markup.descend ["g"; "image"] doc = Some image
          /\ Observe.transform_attr image
             = Spec.sharpLayerTransform 1024 (Types.state e)
               ++ [ Translate (- get_width (source e) / 2)
                              (- get_height (source e) / 2) ])
    /\ match snd (renderFrame cl t ended s1) with
       | Stopped => True
       | Drawn calls =>
           map layer (render calls)
           = [ {| painted := Clear; outline := Rect 0 0 720 720;
                  matrix := []; clipped := []; filtered := [];
                  blend := source_over; ink := None; pen := None |};
               Spec.export_layer 720 (Capture.state cl) (Capture.video cl)
                 (get_videoWidth (Capture.video cl))
                 (get_videoHeight (Capture.video cl)) ]
       end
    /\ (let shifted :=
          setState (fun _ => {| x := 50; y := 0; zoom := 1; rotation := 0 |})
            (onload {| img_src := src; width := Num iw; height := Num ih |} mounted) in
        exists r l,
          handleFinish false true shifted = Some r
          /\ map layer (Observe.bitmap (blob r)) = [l]
          /\ Observe.picture_centre l = Some (lit 592, lit 512)
          /\ (592 - 1024 / 2, 512 - 1024 / 2) = (lit 80, lit 0)
          /\ 50 * (1024 / 640) = 80).
Proof.
  intros c img s e stamp env w w' cl t ended s1 iw ih src Himg Hs Hv Hrec.
  split; [| split; [| split; [| split]]].
  - unfold handleFinish, current_media. rewrite Himg. cbn [option_map negb].
    eexists. repeat split.
  - unfold downloadImage. cbn [exportData setCurrentFormat currentFormat].
    rewrite Hs, Hv. eexists. repeat split.
  - unfold downloadImage. cbn [exportData setCurrentFormat currentFormat].
    rewrite Hs, Hv. eexists. eexists. eexists. repeat split.
  - destruct (recordVideoExport_closure env w w' cl Hrec)
      as (exported & _ & _ & ->).
    unfold renderFrame. cbn [Capture.duration Capture.startTime].
    destruct ((t - now env) / 1000
              >= JS.min (JS.or (get_duration (source exported)) 5) 10);
      destruct ended; cbn [orb snd]; try exact I; reflexivity.
  - cbv zeta. eexists. eexists.
    split; [reflexivity |]. split; [reflexivity |].
    split; [| split; reflexivity].
    unfold Observe.picture_centre.
    cbn [layer shape outline paint Observe.intrinsic width height fst snd
         get_width get_height].
    rewrite !centred_on_origin. reflexivity.
Qed.

(** The witness of C1: the 2000 x 1000 image, its session, and a recording
    of a 15 s clip. *)
Lemma C1_export_transform_witness :
  exists cl,
    Sample.capture 15 = Some cl
    /\ imageRef Sample.image_cropper = Some Sample.image
    /\ exists r,
         handleFinish false true Sample.image_cropper = Some r
         /\ exportData (fst Sample.image_session) = Some r
         /\ map layer (Observe.bitmap (blob r))
            = [ Spec.export_layer 1024 (state Sample.image_cropper)
                  (Image Sample.image) 2000 1000 ].
Proof.
  destruct (Sample.capture 15) as [cl |] eqn:Hcl; [| discriminate].
  exists cl. split; [reflexivity |]. split; [reflexivity |].
  destruct (handleFinish false true Sample.image_cropper) as [r |] eqn:Hr;
    [| discriminate].
  pose proof
    (C1_export_transform Sample.image_cropper Sample.image
       (fst Sample.image_session) r 0 Sample.studio (Sample.video_session 15)
       (snd (recordVideoExport Sample.studio (Sample.video_session 15)))
       cl 0 false initial 2000 1000 "" eq_refl) as H.
  assert (Hs : exportData (fst Sample.image_session) = Some r).
  { unfold Sample.image_session, Sample.finish. rewrite Hr. reflexivity. }
  assert (Hv : Types.isVideo r = false).
  { vm_compute in Hr. inversion Hr. reflexivity. }
  assert (Hrec : recordVideoExport Sample.studio (Sample.video_session 15)
                 = (Return (Some cl),
                    snd (recordVideoExport Sample.studio (Sample.video_session 15)))).
  { unfold Sample.capture in Hcl.
    destruct (recordVideoExport Sample.studio (Sample.video_session 15))
      as [[o |] w1]; cbn [fst snd] in *; [subst o; reflexivity | discriminate]. }
  destruct (H Hs Hv Hrec) as ((r' & Hr' & _ & Hl) & _).
  exists r. split; [reflexivity |]. split; [exact Hs |].
  rewrite Hr in Hr'. injection Hr' as <-. exact Hl.
Defined.

(** ** The circular mask *)

(** The circle an export clips to is the mask of the preview scaled by S. *)
Lemma export_circle_is_scaled_mask (E : Q) :
  lit E / 2 = Spec.maskRadius Spec.previewEdge * Spec.exportScale (lit E).
Proof.
  unfold Spec.exportScale, Spec.maskRadius.
  change (Spec.previewEdge * 0.8) with (Num 640).
  change (0.4 * Spec.previewEdge) with (Num 320).
  change (lit 2) with (Num 2).
  unfold lit. cbn [JS.div JS.mul].
  change ((2 ?= 0)%Q) with Gt. change ((640 ?= 0)%Q) with Gt.
  cbn [JS.mul]. apply Num_Qred_eq. rewrite !Qred_correct. field.
Qed.

(** The clip of the PNG export of the 2000 x 1000 image is the circle of
    radius 512 on a canvas of edge 1024, where 0.4 x 1024 is 409.6. *)
Lemma C2_export_mask_is_half_the_edge :
  option_map (fun r => flat_map Observe.masks (Observe.bitmap (blob r)))
             (handleFinish false true Sample.image_cropper)
  = Some [circle 512 512 512]
  /\ Spec.maskRadius 1024 = 409.6
  /\ lit 512 <> lit 409.6.
Proof.
  split; [reflexivity |]. split; [reflexivity |]. vm_compute. discriminate.
Qed.

(** C2, amended. In the preview, at any canvas edge, every circle of the
    frame (the cut-out, the clip of the sharp media, the rim) is centred on
    the canvas and has radius 0.4 x edge.  Every export clips to the circle
    of radius E/2 centred on its canvas of edge E (1024 for the PNG, the JPEG
    and the SVG, 720 for the recording): the mask of the 800px preview
    scaled by S = E / (800 x 0.8). *)
Theorem C2_mask_radius :
  forall (canvas : HTMLCanvasElement) (isVideo : bool) (c : Cropper)
         (media : Media) (ctx : Context) (img : HTMLImageElement)
         (s : AppState) (e : ExportResult) (stamp : number)
         (env : Studio) (w w' : World) (cl : Capture.closure)
         (t : number) (ended : bool) (s1 : AppState) (E : Q),
    CircleCropper.context2d canvas = true ->
    current_media isVideo c = Some media ->
    pristine (current ctx) = true ->
    imageRef c = Some img ->
    exportData s = Some e ->
    Types.isVideo e = false ->
    recordVideoExport env w = (Return (Some cl), w') ->
    let size := canvas_width canvas in
    let disc := circle (size / 2) (size / 2) (Spec.maskRadius size) in
    (exists calls,
        draw (Some canvas) isVideo c = Some calls
        /\ flat_map Observe.masks (snd (exec calls ctx)) = [disc; disc; disc])
    /\ (exists r,
          handleFinish false true c = Some r
          /\ flat_map Observe.masks (Observe.bitmap (blob r))
             = [circle (1024 / 2) (1024 / 2) (1024 / 2)])
    /\ (exists d,
          downloadImage stamp true (setCurrentFormat jpg s) = Some d
          /\ flat_map Observe.masks (Observe.bitmap (file d))
             = [circle (1024 / 2) (1024 / 2) (1024 / 2)])
    /\ (exists d doc clipper,
          downloadImage stamp true (setCurrentFormat svg s) = Some d
          /\ Observe.document (file d) = Some doc
          /\ Markup.descend ["clipPath"; "circle"] doc = Some clipper
          /\ (Markup.attr "cx" clipper, Markup.attr "cy" clipper,
              Markup.attr "r" clipper)
             = (Some (Markup.Number (1024 / 2)), Some (Markup.Number (1024 / 2)),
                Some (Markup.Number (1024 / 2))))
    /\ match snd (renderFrame cl t ended s1) with
       | Stopped => True
       | Drawn calls =>
           flat_map Observe.masks (render calls)
           = [circle (720 / 2) (720 / 2) (720 / 2)]
       end
    /\ lit E / 2 = Spec.maskRadius Spec.previewEdge * Spec.exportScale (lit E).
Proof.
  intros canvas isVideo c media [[m k f fs ss lw op] sv pth] img s e stamp
         env w w' cl t ended s1 E Hctx Hmedia Hp Himg Hs Hv Hrec size disc.
  cbn [current pristine ctm clipRegion filter globalCompositeOperation] in Hp.
  destruct m; try discriminate. destruct k; try discriminate.
  destruct f; try discriminate. destruct op; try discriminate.
  split; [| split; [| split; [| split; [| split]]]].
  - unfold draw. rewrite Hmedia, Hctx. cbn [negb].
    eexists. split; [reflexivity |].
    subst disc. unfold Spec.maskRadius. rewrite (mul_comm 0.4 size).
    reflexivity.
  - unfold handleFinish, current_media. rewrite Himg. cbn [option_map negb].
    eexists. split; reflexivity.
  - unfold downloadImage. cbn [exportData setCurrentFormat currentFormat].
    rewrite Hs, Hv. eexists. split; reflexivity.
  - unfold downloadImage. cbn [exportData setCurrentFormat currentFormat].
    rewrite Hs, Hv. eexists. eexists. eexists. repeat split.
  - destruct (recordVideoExport_closure env w w' cl Hrec)
      as (exported & _ & _ & ->).
    unfold renderFrame. cbn [Capture.duration Capture.startTime].
    destruct ((t - now env) / 1000
              >= JS.min (JS.or (get_duration (source exported)) 5) 10);
      destruct ended; cbn [orb snd]; try exact I; reflexivity.
  - apply export_circle_is_scaled_mask.
Qed.

(** The witness of C2: the preview and the exports of the 2000 x 1000
    image, and a recording of a 15 s clip. *)
Lemma C2_mask_radius_witness :
  exists cl r,
    Sample.capture 15 = Some cl
    /\ handleFinish false true Sample.image_cropper = Some r
    /\ exists calls,
         draw (Some preview_canvas) false Sample.image_cropper = Some calls
         /\ flat_map Observe.masks (render calls)
            = [circle 400 400 320; circle 400 400 320; circle 400 400 320].
Proof.
  destruct (Sample.capture 15) as [cl |] eqn:Hcl; [| discriminate].
  destruct (handleFinish false true Sample.image_cropper) as [r |] eqn:Hr;
    [| discriminate].
  exists cl, r. split; [reflexivity |]. split; [reflexivity |].
  assert (Hs : exportData (fst Sample.image_session) = Some r).
  { unfold Sample.image_session, Sample.finish. rewrite Hr. reflexivity. }
  assert (Hv : Types.isVideo r = false).
  { vm_compute in Hr. inversion Hr. reflexivity. }
  assert (Hrec : recordVideoExport Sample.studio (Sample.video_session 15)
                 = (Return (Some cl),
                    snd (recordVideoExport Sample.studio (Sample.video_session 15)))).
  { unfold Sample.capture in Hcl.
    destruct (recordVideoExport Sample.studio (Sample.video_session 15))
      as [[o |] w1]; cbn [fst snd] in *; [subst o; reflexivity | discriminate]. }
  destruct (C2_mask_radius preview_canvas false Sample.image_cropper
              (Image Sample.image) getContext Sample.image
              (fst Sample.image_session) r 0 Sample.studio
              (Sample.video_session 15)
              (snd (recordVideoExport Sample.studio (Sample.video_session 15)))
              cl 0 false initial 1024
              eq_refl eq_refl eq_refl eq_refl Hs Hv Hrec)
    as ((calls & Hdraw & Hmasks) & _).
  exists calls. split; [exact Hdraw |]. exact Hmasks.
Defined.

(** ** The recording loop *)

(** The arithmetic of one frame, [t] ms on the clock for a recording started
    at [t0] with a capture of [dq] seconds: the frame stops when [dq] seconds
    have passed, the progress it reports is at most 100, is 100 exactly when
    it stops, and is not negative once the clock has reached [t0]. *)
Lemma frame_arith (t t0 dq : Q) :
  (0 < dq)%Q ->
  let elapsed := (Num t - Num t0) / 1000 in
  let progress := JS.min 100 (elapsed / Num dq * 100) in
  (elapsed >= Num dq) = Qle_bool (dq * 1000) (t - t0)
  /\ (progress = lit 100 <-> (dq * 1000 <= t - t0)%Q)
  /\ (progress <= 100) = true
  /\ ((t0 <= t)%Q -> (0 <= progress) = true).
Proof.
  intros Hd elapsed progress. subst progress elapsed.
  change (lit 1000) with (Num 1000). change (lit 100) with (Num 100).
  change (lit 0) with (Num 0).
  cbn [JS.sub JS.neg JS.add JS.div].
  change ((1000 ?= 0)%Q) with Gt. cbn [JS.div].
  set (e := Qred (Qred (t + Qred (- t0)) / 1000)).
  assert (He : (e == (t - t0) / 1000)%Q).
  { subst e. rewrite !Qred_correct. reflexivity. }
  assert (Hc : (dq ?= 0)%Q = Gt) by (apply Qgt_alt; exact Hd).
  rewrite Hc. cbn [JS.mul].
  set (p := Qred (Qred (e / dq) * 100)).
  assert (Hp : (p == e / dq * 100)%Q).
  { subst p. rewrite !Qred_correct. reflexivity. }
  assert (He' : (e * 1000 == t - t0)%Q) by (rewrite He; field).
  assert (Hpe : (p * dq == e * 100)%Q).
  { rewrite Hp. field. intros Hz. rewrite Hz in Hd. discriminate. }
  assert (Hstop : (dq <= e)%Q <-> (dq * 1000 <= t - t0)%Q) by (split; lra).
  assert (Hfull : (100 <= p)%Q <-> (dq <= e)%Q).
  { rewrite <- (Qmult_le_r 100 p dq Hd). rewrite Hpe. split; lra. }
  assert (Hpos : (0 <= e)%Q -> (0 <= p)%Q).
  { intros H0. apply (Qmult_le_r 0 p dq Hd). rewrite Hpe. lra. }
  unfold JS.ge, JS.min. cbn [JS.le].
  split; [| split; [| split]].
  - apply eq_true_iff_eq. rewrite !Qle_bool_iff. exact Hstop.
  - destruct (Qle_bool 100 p) eqn:Hb.
    + apply Qle_bool_iff in Hb. split; intros _; [| reflexivity].
      apply Hstop, Hfull, Hb.
    + assert (Hn : ~ (100 <= p)%Q).
      { intros H. apply Qle_bool_iff in H. congruence. }
      split.
      * intros H. injection H as H. exfalso. apply Hn. rewrite H. lra.
      * intros H. exfalso. apply Hn, Hfull, Hstop, H.
  - destruct (Qle_bool 100 p) eqn:Hb; cbn [JS.le].
    + reflexivity.
    + apply Qle_bool_iff.
      destruct (Qlt_le_dec p 100) as [Hl | Hl]; [lra |].
      apply Qle_bool_iff in Hl. congruence.
  - intros Ht. destruct (Qle_bool 100 p) eqn:Hb; cbn [JS.le].
    + reflexivity.
    + apply Qle_bool_iff. apply Hpos. lra.
Qed.

(** For a positive duration, infinite or not, the capture lasts
    min(duration, 10) seconds, a positive time of at most 10. *)
Lemma capture_duration_positive (v : number) :
  (0 < v) = true ->
  JS.min (JS.or v 5) 10 = Spec.captureDuration v
  /\ exists dq : Q, Spec.captureDuration v = Num dq /\ (0 < dq)%Q /\ (dq <= 10)%Q.
Proof.
  unfold Spec.captureDuration.
  change (lit 0) with (Num 0). change (lit 10) with (Num 10).
  destruct v as [q | | |]; cbn [JS.lt JS.le negb]; try discriminate.
  - intros H. apply negb_true_iff in H.
    assert (Hq : (0 < q)%Q).
    { destruct (Qlt_le_dec 0 q) as [Hl | Hl]; [exact Hl |].
      apply Qle_bool_iff in Hl. congruence. }
    unfold JS.or. cbn [JS.truthy].
    destruct (Qeq_bool q 0) eqn:Hz.
    { apply Qeq_bool_eq in Hz. lra. }
    cbn [negb]. split; [reflexivity |].
    unfold JS.min. cbn [JS.le].
    destruct (Qle_bool q 10) eqn:Hle.
    + apply Qle_bool_iff in Hle. exists q. auto.
    + exists 10%Q. repeat split; lra.
  - intros _. split; [reflexivity |]. exists 10%Q. repeat split; lra.
Qed.

(** What one [renderFrame] reports and whether it stops. *)
Lemma renderFrame_spec (cl : Capture.closure) (t0 dq t : Q) (ended : bool)
    (s1 : AppState) :
  Capture.startTime cl = Num t0 ->
  Capture.duration cl = Num dq ->
  (0 < dq)%Q ->
  let elapsed := (Num t - Num t0) / 1000 in
  let s2 := fst (renderFrame cl (Num t) ended s1) in
  recordingProgress s2 = JS.min 100 (elapsed / Num dq * 100)
  /\ Observe.stopped (snd (renderFrame cl (Num t) ended s1))
     = ((elapsed >= Num dq) || ended).
Proof.
  intros Ht Hd Hpos elapsed s2. subst elapsed s2.
  unfold renderFrame. rewrite Ht, Hd.
  destruct (((Num t - Num t0) / 1000 >= Num dq) || ended); split; reflexivity.
Qed.

(** The loop, on any ticks of the clock while the video has not ended:
    every frame stops exactly when it reports 100, and once a tick reaches
    the cap the loop has stopped, on the first frame that reported 100. *)
Lemma animate_until_cap (cl : Capture.closure) (t0 dq : Q) :
  Capture.startTime cl = Num t0 ->
  Capture.duration cl = Num dq ->
  (0 < dq)%Q ->
  forall (ticks : list Q) (s1 : AppState),
    let trace := animate cl (map (fun q : Q => (Num q, false)) ticks) s1 in
    Forall (fun sf => Observe.stopped (snd sf) = true
                      <-> recordingProgress (fst sf) = lit 100) trace
    /\ (Exists (fun q => (dq * 1000 <= q - t0)%Q) ticks ->
        exists before s2,
          trace = before ++ [(s2, Stopped)]
          /\ recordingProgress s2 = 100
          /\ Forall (fun sf => Observe.stopped (snd sf) = false
                               /\ recordingProgress (fst sf) <> lit 100) before).
Proof.
  intros Ht Hd Hpos ticks.
  induction ticks as [| q rest IH]; intros s1 trace; subst trace.
  - split; [constructor |]. intros H. inversion H.
  - cbn [map animate].
    destruct (renderFrame_spec cl t0 dq q false s1 Ht Hd Hpos) as (Hprog & Hstop).
    destruct (frame_arith q t0 dq Hpos) as (Hge & Hfull & _ & _).
    cbv zeta in Hprog, Hstop.
    rewrite orb_false_r in Hstop.
    destruct (renderFrame cl (Num q) false s1) as [s' frame].
    cbn [fst snd] in Hprog, Hstop.
    assert (Hiff : Observe.stopped frame = true <-> recordingProgress s' = lit 100).
    { rewrite Hprog, Hstop, Hge, Hfull. apply Qle_bool_iff. }
    destruct frame as [| calls].
    + split.
      * constructor; [exact Hiff | constructor].
      * intros _. exists [], s'. split; [reflexivity |].
        split; [apply Hiff; reflexivity | constructor].
    + destruct (IH s') as (IHall & IHstop).
      split.
      * constructor; [exact Hiff | exact IHall].
      * intros Hex. inversion Hex as [? ? Hq | ? ? Hrest]; subst.
        -- exfalso. cbn [Observe.stopped] in Hstop.
           rewrite Hge in Hstop. apply Qle_bool_iff in Hq. congruence.
        -- destruct (IHstop Hrest) as (before & s2 & Htrace & H100 & Hbefore).
           exists ((s', Drawn calls) :: before), s2.
           split; [cbn [app]; rewrite Htrace; reflexivity |].
           split; [exact H100 |].
           constructor; [| exact Hbefore].
           cbn [fst snd Observe.stopped]. split; [reflexivity |].
           intros H. apply Hiff in H. discriminate.
Qed.

(** A clip whose duration is 0 is captured for 5 seconds, where
    min(duration, 10) is 0: after one second the loop is still drawing. *)
Lemma C4_zero_duration_runs_five_seconds :
  option_map Capture.duration (Sample.capture 0) = Some (lit 5)
  /\ Spec.captureDuration 0 = 0
  /\ lit 5 <> lit 0
  /\ option_map (fun cl => Observe.stopped (snd (renderFrame cl 1000 false initial)))
                (Sample.capture 0)
     = Some false.
Proof.
  split; [reflexivity |]. split; [reflexivity |].
  split; [vm_compute; discriminate | reflexivity].
Qed.

(** C4, amended. For every video whose duration is positive (infinite
    included), the recording captures the canvas at 30 frames per second for
    min(duration, 10) seconds.  Every frame reports the progress
    min(100, elapsed / duration x 100): at most 100, not negative once the
    clock has reached the start, and 100 exactly when the time is up.  A
    frame stops the recorder when the time is up or the video has ended,
    whichever comes first.  For a clip of 15 seconds the capture lasts 10
    seconds: while the video has not ended a frame stops exactly when it
    reports 100, and once the clock is 10 000 ms past the start the loop has
    stopped on the first frame that reported 100, every frame before it
    having drawn and reported less. *)
Theorem C4_animated_capture :
  forall (env : Studio) (w w' : World) (cl : Capture.closure) (t0 t : Q),
    recordVideoExport env w = (Return (Some cl), w') ->
    (0 < get_duration (Capture.video cl)) = true ->
    now env = Num t0 ->
    Capture.frameRate cl = 30
    /\ Capture.duration cl = Spec.captureDuration (get_duration (Capture.video cl))
    /\ (forall (ended : bool) (s1 : AppState),
          let elapsed := (Num t - Num t0) / 1000 in
          let s2 := fst (renderFrame cl (Num t) ended s1) in
          recordingProgress s2 = JS.min 100 (elapsed / Capture.duration cl * 100)
          /\ (recordingProgress s2 <= 100) = true
          /\ ((t0 <= t)%Q -> (0 <= recordingProgress s2) = true)
          /\ Observe.stopped (snd (renderFrame cl (Num t) ended s1))
             = ((elapsed >= Capture.duration cl) || ended)
          /\ (recordingProgress s2 = lit 100
              <-> (elapsed >= Capture.duration cl) = true))
    /\ (get_duration (Capture.video cl) = 15 ->
        Capture.duration cl = 10
        /\ forall (ticks : list Q) (s1 : AppState),
             let trace := animate cl (map (fun q : Q => (Num q, false)) ticks) s1 in
             Forall (fun sf => Observe.stopped (snd sf) = true
                               <-> recordingProgress (fst sf) = lit 100) trace
             /\ (Exists (fun q => (t0 + 10000 <= q)%Q) ticks ->
                 exists before s2,
                   trace = before ++ [(s2, Stopped)]
                   /\ recordingProgress s2 = 100
                   /\ Forall (fun sf => Observe.stopped (snd sf) = false
                                        /\ recordingProgress (fst sf) <> lit 100)
                             before)).
Proof.
  intros env w w' cl t0 t Hrec Hpos Hnow.
  destruct (recordVideoExport_closure env w w' cl Hrec)
    as (exported & _ & _ & ->).
  cbn [Capture.video Capture.duration Capture.frameRate Capture.startTime] in *.
  destruct (capture_duration_positive _ Hpos) as (Hcap & dq & Hdq & Hdpos & Hd10).
  split; [reflexivity |]. split; [exact Hcap |]. split.
  - intros ended s1.
    rewrite Hcap, Hdq.
    match goal with
    | |- context [renderFrame ?c _ _ _] =>
        destruct (renderFrame_spec c t0 dq t ended s1) as (Hprog & Hstop);
        [ exact Hnow | reflexivity | exact Hdpos | ]
    end.
    cbv zeta in Hprog, Hstop.
    destruct (frame_arith t t0 dq Hdpos) as (Hge & Hfull & Hle & H0).
    cbv zeta in Hfull, Hle, H0.
    rewrite Hprog.
    split; [reflexivity |]. split; [exact Hle |]. split; [exact H0 |].
    split; [exact Hstop |].
    rewrite Hfull, Hge. symmetry. apply Qle_bool_iff.
  - intros H15. rewrite H15. split; [reflexivity |].
    intros ticks s1.
    match goal with
    | |- context [animate ?c _ _] =>
        destruct (animate_until_cap c t0 10 Hnow eq_refl eq_refl ticks s1)
          as (Hall & Hstop)
    end.
    split; [exact Hall |].
    intros Hex. apply Hstop.
    apply Exists_exists in Hex. destruct Hex as (q & Hin & Hq).
    apply Exists_exists. exists q. split; [exact Hin | lra].
Qed.

(** The witness of C4: a clip of 15 seconds, recorded from time 0. *)
Lemma C4_animated_capture_witness :
  exists cl,
    Sample.capture 15 = Some cl
    /\ (0 < get_duration (Capture.video cl)) = true
    /\ now Sample.studio = Num 0
    /\ Capture.frameRate cl = 30
    /\ Capture.duration cl = 10.
Proof.
  destruct (Sample.capture 15) as [cl |] eqn:Hcl; [| discriminate].
  exists cl. split; [reflexivity |].
  assert (Hrec : recordVideoExport Sample.studio (Sample.video_session 15)
                 = (Return (Some cl),
                    snd (recordVideoExport Sample.studio (Sample.video_session 15)))).
  { unfold Sample.capture in Hcl.
    destruct (recordVideoExport Sample.studio (Sample.video_session 15))
      as [[o |] w1]; cbn [fst snd] in *; [subst o; reflexivity | discriminate]. }
  assert (Hpos : (0 < get_duration (Capture.video cl)) = true).
  { vm_compute in Hcl. injection Hcl as <-. reflexivity. }
  assert (H15 : get_duration (Capture.video cl) = 15).
  { vm_compute in Hcl. injection Hcl as <-. reflexivity. }
  split; [exact Hpos |]. split; [reflexivity |].
  destruct (C4_animated_capture Sample.studio (Sample.video_session 15) _ cl
              0 5000 Hrec Hpos eq_refl) as (Hfps & _ & _ & Hscenario).
  split; [exact Hfps |]. exact (proj1 (Hscenario H15)).
Defined.

(** C10. When the duration of the video is falsy (0 or [NaN]) as the
    recording starts, the capture lasts min(5, 10) = 5 seconds: a frame stops
    the recorder exactly when 5000 ms have passed, and the frame drawn at the
    start does not. *)
Theorem C10_falsy_duration_defaults :
  forall (env : Studio) (w w' : World) (cl : Capture.closure) (t0 : Q)
         (s1 : AppState),
    recordVideoExport env w = (Return (Some cl), w') ->
    JS.truthy (get_duration (Capture.video cl)) = false ->
    now env = Num t0 ->
    Capture.duration cl = JS.min 5 10
    /\ Capture.duration cl = 5
    /\ (forall t : Q,
          Observe.stopped (snd (renderFrame cl (Num t) false s1))
          = Qle_bool 5000 (t - t0))
    /\ Observe.stopped (snd (renderFrame cl (now env) false s1)) = false.
Proof.
  intros env w w' cl t0 s1 Hrec Hfalsy Hnow.
  destruct (recordVideoExport_closure env w w' cl Hrec)
    as (exported & _ & _ & ->).
  cbn [Capture.video Capture.duration] in *.
  unfold JS.or. rewrite Hfalsy.
  split; [reflexivity |]. split; [reflexivity |].
  assert (Hframe : forall t : Q,
             Observe.stopped
               (snd (renderFrame
                       {| Capture.video := source exported;
                          Capture.state := Types.state exported;
                          Capture.exportSize := 720;
                          Capture.S := 720 / (800 * 0.8);
                          Capture.frameRate := 30;
                          Capture.mimeType := "video/webm;codecs=vp9";
                          Capture.duration := JS.min 5 10;
                          Capture.startTime := now env |} (Num t) false s1))
             = Qle_bool 5000 (t - t0)).
  { intros t.
    match goal with
    | |- context [renderFrame ?c _ _ _] =>
        destruct (renderFrame_spec c t0 5 t false s1 Hnow eq_refl eq_refl)
          as (_ & Hstop)
    end.
    destruct (frame_arith t t0 5 eq_refl) as (Hge & _).
    cbv zeta in Hstop, Hge. rewrite Hstop, orb_false_r, Hge.
    apply eq_true_iff_eq. rewrite !Qle_bool_iff. split; lra. }
  split; [exact Hframe |].
  pose proof (Hframe t0) as Hfirst. rewrite <- Hnow in Hfirst.
  rewrite Hfirst. apply not_true_iff_false. intros H.
  apply Qle_bool_iff in H. lra.
Qed.

(** The witness of C10: a clip of duration 0 and a clip of duration
    [NaN]. *)
Lemma C10_falsy_duration_defaults_witness :
  exists zero nan,
    Sample.capture 0 = Some zero
    /\ Sample.capture NaN = Some nan
    /\ JS.truthy (get_duration (Capture.video zero)) = false
    /\ JS.truthy (get_duration (Capture.video nan)) = false
    /\ Capture.duration zero = 5
    /\ Capture.duration nan = 5.
Proof.
  destruct (Sample.capture 0) as [zero |] eqn:H0; [| discriminate].
  destruct (Sample.capture NaN) as [nan |] eqn:Hn; [| discriminate].
  exists zero, nan. split; [reflexivity |]. split; [reflexivity |].
  assert (Hrec0 : recordVideoExport Sample.studio (Sample.video_session 0)
                  = (Return (Some zero),
                     snd (recordVideoExport Sample.studio (Sample.video_session 0)))).
  { unfold Sample.capture in H0.
    destruct (recordVideoExport Sample.studio (Sample.video_session 0))
      as [[o |] w1]; cbn [fst snd] in *; [subst o; reflexivity | discriminate]. }
  assert (Hrecn : recordVideoExport Sample.studio (Sample.video_session NaN)
                  = (Return (Some nan),
                     snd (recordVideoExport Sample.studio (Sample.video_session NaN)))).
  { unfold Sample.capture in Hn.
    destruct (recordVideoExport Sample.studio (Sample.video_session NaN))
      as [[o |] w1]; cbn [fst snd] in *; [subst o; reflexivity | discriminate]. }
  assert (Hf0 : JS.truthy (get_duration (Capture.video zero)) = false).
  { vm_compute in H0. injection H0 as <-. reflexivity. }
  assert (Hfn : JS.truthy (get_duration (Capture.video nan)) = false).
  { vm_compute in Hn. injection Hn as <-. reflexivity. }
  split; [exact Hf0 |]. split; [exact Hfn |].
  split.
  - exact (proj1 (proj2 (C10_falsy_duration_defaults Sample.studio _ _ zero 0
                           initial Hrec0 Hf0 eq_refl))).
  - exact (proj1 (proj2 (C10_falsy_duration_defaults Sample.studio _ _ nan 0
                           initial Hrecn Hfn eq_refl))).
Defined.

(** ** Background removal *)

(** Without an [inlineData] among the parts, the loop leaves
    [newImageBase64] empty. *)
Lemma first_inline_without_inline (ps : list Part) :
  existsb (fun part => match inlineData part with
                       | Some _ => true
                       | None => false
                       end) ps = false ->
  first_inline ps = Some "".
Proof.
  induction ps as [| part rest IH]; [reflexivity |].
  cbn [existsb first_inline]. destruct (inlineData part); [discriminate |].
  exact IH.
Qed.

(** C9. [removeBackground] never throws.  When the response has no inline
    image among its parts, the export (its blob and its [bgRemoved] flag) and
    the preview are what they were.  When the call fails on an image export
    (the client cannot be made or the request is rejected), the error is
    logged and one alert is shown, the export and the preview are what they
    were, and the processing flag and message are cleared. *)
Theorem C9_background_removal_failures :
  forall (net : Network) (closure : option ExportResult) (w : World),
    (exists w', removeBackground net closure w = (Return tt, w'))
    /\ (forall response : Response,
          generateContent net = Return response ->
          Observe.has_inline response = false ->
          exportData (fst (snd (removeBackground net closure w)))
          = exportData (fst w)
          /\ previewUrl (fst (snd (removeBackground net closure w)))
             = previewUrl (fst w))
    /\ (forall exported : ExportResult,
          fails net = true ->
          closure = Some exported ->
          Types.isVideo exported = false ->
          exportData (fst (snd (removeBackground net closure w)))
          = exportData (fst w)
          /\ previewUrl (fst (snd (removeBackground net closure w)))
             = previewUrl (fst w)
          /\ isProcessing (fst (snd (removeBackground net closure w))) = false
          /\ processingMessage (fst (snd (removeBackground net closure w))) = ""
          /\ snd (snd (removeBackground net closure w))
             = snd w ++ [ console_error "BG removal failed:";
                          alert "Background removal failed. Please check your connection." ]).
Proof.
  intros net closure [s effects].
  unfold removeBackground. cbn [fst snd].
  destruct closure as [exported |].
  2:{ split; [eexists; reflexivity |]. split.
      - intros. split; reflexivity.
      - intros ? _ H. discriminate. }
  destruct (Types.isVideo exported) eqn:Hv.
  { split; [eexists; reflexivity |]. split.
    - intros. split; reflexivity.
    - intros ? _ He' Hv'. injection He' as <-. congruence. }
  unfold try_finally, try_catch, bind, set, perform, modify, ret, await.
  cbn [fst snd].
  split; [| split].
  - destruct (GoogleGenAI net); [| eexists; reflexivity].
    destruct (generateContent net) as [response |]; [| eexists; reflexivity].
    destruct (parts_of response) as [ps |]; [| eexists; reflexivity].
    destruct (nonempty (first_inline ps)) as [b64 |]; [| eexists; reflexivity].
    destruct (Base64.atob b64); eexists; reflexivity.
  - intros response Hg Hno. rewrite Hg.
    unfold Observe.has_inline in Hno.
    destruct (GoogleGenAI net); [| split; reflexivity].
    destruct (parts_of response) as [ps |]; [| split; reflexivity].
    rewrite (first_inline_without_inline ps Hno).
    split; reflexivity.
  - intros exported' Hf _ _. unfold fails in Hf.
    destruct (GoogleGenAI net);
      [destruct (generateContent net); [discriminate |] |];
      cbn; repeat split; rewrite <- app_assoc; reflexivity.
Qed.

(** The witness of C9: the sample image session, with the network down and
    with a model that answers with text only. *)
Lemma C9_background_removal_failures_witness :
  let session := Sample.image_session in
  exists w1 w2,
    removeBackground Sample.offline (exportData (fst session)) session
    = (Return tt, w1)
    /\ removeBackground Sample.text_only (exportData (fst session)) session
       = (Return tt, w2)
    /\ exportData (fst w1) = exportData (fst session)
    /\ exportData (fst w2) = exportData (fst session)
    /\ isProcessing (fst w1) = false
    /\ In (alert "Background removal failed. Please check your connection.")
          (snd w1).
Proof.
  intros session.
  destruct (C9_background_removal_failures Sample.offline
              (exportData (fst session)) session)
    as ((w1 & H1) & _ & Hfail).
  destruct (C9_background_removal_failures Sample.text_only
              (exportData (fst session)) session)
    as ((w2 & H2) & Hnone & _).
  exists w1, w2. split; [exact H1 |]. split; [exact H2 |].
  destruct (exportData (fst session)) as [exported |] eqn:He;
    [| discriminate].
  assert (Hv : Types.isVideo exported = false).
  { vm_compute in He. injection He as <-. reflexivity. }
  destruct (Hfail exported eq_refl eq_refl Hv) as (Hx & _ & Hp & _ & Hfx).
  destruct (Hnone _ eq_refl eq_refl) as (Hx2 & _).
  rewrite H1 in Hx, Hp, Hfx. rewrite H2 in Hx2. cbn [snd] in *.
  split; [exact Hx |]. split; [exact Hx2 |]. split; [exact Hp |].
  rewrite Hfx. apply in_or_app. right. right. left. reflexivity.
Defined.

(** ** The SVG container of a video *)

(** A step that leaves the source and the export alone keeps the
    invariant. *)
Lemma exclusive_ext (s s' : AppState) :
  exportData s' = exportData s ->
  sourceData s' = sourceData s ->
  Observe.exclusive s -> Observe.exclusive s'.
Proof.
  unfold Observe.exclusive. intros He Hs Hx exported H Hv.
  rewrite Hs. apply (Hx exported); [rewrite <- He; exact H | exact Hv].
Qed.

(** Starting a recording touches neither the source nor the export. *)
Lemma recordVideoExport_keeps (env : Studio) (w : World) :
  exportData (fst (snd (recordVideoExport env w))) = exportData (fst w)
  /\ sourceData (fst (snd (recordVideoExport env w))) = sourceData (fst w).
Proof.
  unfold recordVideoExport.
  destruct (exportData (fst w)) as [exported |] eqn:He;
    [| cbn; rewrite He; split; reflexivity].
  destruct (Types.isVideo exported); cbn [negb];
    [| cbn; rewrite He; split; reflexivity].
  unfold bind, set, modify, ret, throw, await. cbn [fst snd].
  destruct (context2d env); cbn [negb]; [| cbn; rewrite He; split; reflexivity].
  destruct (supported env); cbn [negb]; [| cbn; rewrite He; split; reflexivity].
  destruct (play env); cbn; rewrite He; split; reflexivity.
Qed.

(** Every step that sets the export of a video clears the source, and every
    step that sets a source clears the export. *)
Lemma step_exclusive (w : World) (e : Event) :
  Observe.exclusive (fst w) -> Observe.exclusive (fst (step w e)).
Proof.
  destruct w as [s effects]. cbn [fst]. intros Hx.
  destruct e as [ result isVideo | result | result | | format | net closure
                | stamp | stamp ctx | env | cl stamp ended | chunks stamp | ];
    cbn [step fst snd].
  - intros exported He. discriminate.
  - unfold onCropComplete, bind, set, perform, modify, ret. cbn.
    destruct (previewUrl s); destruct (Types.isVideo result); cbn;
      solve [intros exported He Hv; reflexivity | exact Hx].
  - intros exported He Hv. reflexivity.
  - intros exported He Hv. reflexivity.
  - exact Hx.
  - unfold removeBackground.
    destruct closure as [captured |]; [| exact Hx].
    destruct (Types.isVideo captured) eqn:Hc; [exact Hx |].
    unfold try_finally, try_catch, bind, set, perform, modify, ret, await.
    cbn [fst snd].
    destruct (GoogleGenAI net); [| exact Hx].
    destruct (generateContent net) as [response |]; [| exact Hx].
    destruct (parts_of response) as [ps |]; [| exact Hx].
    destruct (nonempty (first_inline ps)) as [b64 |]; [| exact Hx].
    destruct (Base64.atob b64); [| exact Hx].
    cbn. intros exported He Hv. injection He as <-.
    cbn [Types.isVideo] in Hv. congruence.
  - unfold click_if. destruct (exportVideoAsSVG stamp s); exact Hx.
  - unfold click_if. destruct (downloadImage stamp ctx s); exact Hx.
  - destruct (recordVideoExport_keeps env (s, effects)) as (He & Hs).
    exact (exclusive_ext s _ He Hs Hx).
  - unfold renderFrame.
    destruct (_ || ended); exact Hx.
  - exact Hx.
  - intros exported He. discriminate.
Qed.

(** In every state a session can reach, the export of a video is never held
    together with a source. *)
Lemma run_exclusive (events : list Event) : Observe.exclusive (fst (run events)).
Proof.
  unfold run.
  assert (G : forall (l : list Event) (w : World),
             Observe.exclusive (fst w) ->
             Observe.exclusive (fst (fold_left step l w))).
  { induction l as [| e l IH]; intros w Hw; [exact Hw |].
    cbn [fold_left]. apply IH, step_exclusive, Hw. }
  apply G. intros exported He. discriminate.
Qed.

(** C8. In every state a session can reach, the SVG container saved for a
    video export is a [foreignObject] clipped by the [clipPath] circle of
    radius 512, holding inside a centring flex box a [video] element whose
    CSS transform is translate(panX.S, panY.S) rotate(rotation) scale(zoom.S)
    with S = 1024 / (800 x 0.8) (about the centre of the canvas, the matrix
    of the sharp layer), and whose only child is a [source] element.  The
    [src] of that element is the empty string: [sourceData] was cleared when
    the crop completed, so the file names no video to play. *)
Theorem C8_video_svg_container :
  forall (events : list Event) (stamp : number) (d : Download),
    exportVideoAsSVG stamp (fst (run events)) = Some d ->
    exists (exported : ExportResult) (doc frame video inner clipper : Markup.Xml),
      exportData (fst (run events)) = Some exported
      /\ Types.isVideo exported = true
      /\ Observe.document (file d) = Some doc
      /\ Markup.find "foreignObject" doc = Some frame
      /\ Markup.attr "clip-path" frame = Some (Markup.Text "url(#circleClip)")
      /\ Markup.descend ["clipPath"; "circle"] doc = Some clipper
      /\ Markup.attr "r" clipper = Some (Markup.Number (1024 / 2))
      /\ Markup.find "video" frame = Some video
      /\ Observe.css_transform video
         = [ Markup.translate (x (Types.state exported) * Spec.exportScale 1024)
                              (y (Types.state exported) * Spec.exportScale 1024);
             Markup.rotate (rotation (Types.state exported));
             Markup.scale (zoom (Types.state exported) * Spec.exportScale 1024) ]
      /\ about (1024 / 2) (1024 / 2)
               (map Markup.to_canvas (Observe.css_transform video))
         = Spec.sharpLayerTransform 1024 (Types.state exported)
      /\ Markup.children_of video = [inner]
      /\ Markup.tag_of inner = "source"
      /\ Markup.attr "src" inner = Some (Markup.Text "").
Proof.
  intros events stamp d Hd.
  pose proof (run_exclusive events) as Hx.
  unfold exportVideoAsSVG in Hd.
  destruct (exportData (fst (run events))) as [exported |] eqn:He;
    [| discriminate].
  destruct (Types.isVideo exported) eqn:Hv; cbn [negb] in Hd; [| discriminate].
  assert (Hs : sourceData (fst (run events)) = None).
  { exact (Hx exported He Hv). }
  rewrite Hs in Hd. cbn [option_map or_else] in Hd.
  injection Hd as <-.
  exists exported. do 5 eexists.
  split; [reflexivity |]. split; [exact Hv |].
  repeat (split; [reflexivity |]). reflexivity.
Qed.

(** The witness of C8: the session of a 15 s clip read from a data URL; the
    container saved has an empty [src]. *)
Lemma C8_video_svg_container_witness :
  exists d inner,
    exportVideoAsSVG 0 (fst (Sample.video_session 15)) = Some d
    /\ option_map (Markup.find "source") (Observe.document (file d))
       = Some (Some inner)
    /\ Markup.attr "src" inner = Some (Markup.Text "").
Proof.
  destruct (exportVideoAsSVG 0 (fst (Sample.video_session 15))) as [d |] eqn:Hd;
    [| discriminate].
  destruct (C8_video_svg_container _ 0 d Hd)
    as (exported & doc & frame & video & inner & clipper
        & _ & _ & Hdoc & Hframe & _ & _ & _ & Hvideo & _ & _ & Hkids & Htag & Hsrc).
  exists d, inner. split; [reflexivity |]. split; [| exact Hsrc].
  vm_compute in Hd. injection Hd as <-.
  vm_compute in Hdoc. injection Hdoc as <-.
  vm_compute in Hframe. injection Hframe as <-.
  vm_compute in Hvideo. injection Hvideo as <-.
  vm_compute in Hkids. injection Hkids as <-.
  reflexivity.
Defined.

(** ** Agreement with binary64 on the scenarios

    The values of the scenarios in the exact model, rounded to binary64, are
    the doubles the browser gets by computing the same expressions in
    binary64: the auto-fit zoom of the 2000 x 1000 image, the scale and the
    centre of the export with pan (50,0), the radius of the preview mask and
    0.4 x 1024. *)

#[warnings="-inexact-float"]
Lemma autofit_zoom_binary64 :
  Binary64.to_binary64 (zoom (state Sample.image_cropper))
  = (800 * 0.8 / 1000)%float.
Proof. reflexivity. Qed.

#[warnings="-inexact-float"]
Lemma export_scale_binary64 :
  Binary64.to_binary64 (Spec.exportScale 1024) = (1024 / (800 * 0.8))%float.
Proof. reflexivity. Qed.

#[warnings="-inexact-float"]
Lemma export_centre_binary64 :
  option_map (fun p => Binary64.to_binary64 (fst p))
    (origin (Spec.sharpLayerTransform 1024
               {| x := 50; y := 0; zoom := 1; rotation := 0 |}))
  = Some (1024 / 2 + 50 * (1024 / (800 * 0.8)))%float
  /\ (1024 / 2 + 50 * (1024 / (800 * 0.8)) - 1024 / 2 = 80)%float.
Proof. split; reflexivity. Qed.

#[warnings="-inexact-float"]
Lemma mask_radius_binary64 :
  Binary64.to_binary64 (canvas_width preview_canvas * 0.4) = (800 * 0.4)%float
  /\ Binary64.to_binary64 (Spec.maskRadius 1024) = (1024 * 0.4)%float.
Proof. split; reflexivity. Qed.
